(** * CoinGecko market agent: HTTP routes, MCP tool server, facade, payment gate

    A shallow embedding of

    - [src/routes/coingecko.routes.ts]  (the Express router and its
      [callCoinGeckoAPI] helper),
    - [src/server.ts]                    (class [MCPServer]: request handlers,
      [callTool], the private [callCoinGeckoAPI], tool / prompt / resource
      handlers; in the source tree at hand its text follows the router's in
      [routes/coingecko.routes.ts]),
    - [src/controllers/tool.controller.ts] (class [ToolController]),
    - [src/index.ts]                     (middleware stack, payment gate).

    JavaScript values are a small inductive type; objects are association
    lists in insertion order (the order [Object.entries] enumerates them in);
    [async] functions are computations in a monad that threads the log of
    outbound [fetch] calls and may complete abruptly with a thrown value.
    The network, [process.env], the engine's stack traces and the clock are
    parameters of the development. *)

From Stdlib Require Import ZArith List String Ascii Bool Lia.
From Stdlib Require Import DecimalString DecimalPos DecimalZ.
Import ListNotations.

Open Scope string_scope.
Open Scope Z_scope.

Set Warnings "-register-all".

(* ================================================================== *)
(** ** JavaScript values *)

Module JS.

(** JSON values as the handlers receive them.  A number is an integer
    ([JNum n], read as the double of that value when [n] is a safe
    integer); fractions, NaN, the infinities and negative zero are not
    represented, so every statement below about a numeric input is a
    statement about integer inputs. *)
Inductive Js : Type :=
| JUndefined
| JNull
| JBool (b : bool)
| JNum (n : Z)
| JStr (s : string)
| JArr (items : list Js)
| JObj (fields : list (string * Js)).

Definition Obj : Type := list (string * Js).

(** [String(v)], which is also what a template literal and
    [URLSearchParams.append] apply to a value.  The function gives the
    result of the conversion where it returns one: on the values that
    [stringable] (below) accepts.  On the others (an object that owns a
    [toString] property, a number beyond the safe integers) the conversion
    throws or prints in exponent form, and statements that read the text
    are restricted to stringable inputs. *)
Fixpoint js_String (v : Js) : string :=
  match v with
  | JUndefined => "undefined"
  | JNull => "null"
  | JBool true => "true"
  | JBool false => "false"
  | JNum n => NilZero.string_of_int (Z.to_int n)
  | JStr s => s
  | JArr items =>
      (fix join (l : list Js) : string :=
         match l with
         | [] => EmptyString
         | x :: r =>
             let sx := match x with
                       | JUndefined | JNull => EmptyString
                       | _ => js_String x
                       end in
             match r with
             | [] => sx
             | _ :: _ => sx ++ "," ++ join r
             end
         end) items
  | JObj _ => "[object Object]"
  end.

(** ToBoolean: the falsy values are [undefined], [null], [false], [0] and the
    empty string. *)
Definition truthy (v : Js) : bool :=
  match v with
  | JUndefined | JNull => false
  | JBool b => b
  | JNum n => negb (n =? 0)
  | JStr s => negb (s =? EmptyString)%string
  | JArr _ | JObj _ => true
  end.

(** [a || b] and [a && b] on values. *)
Definition js_or (a b : Js) : Js := if truthy a then a else b.
Definition js_and (a b : Js) : Js := if truthy a then b else a.

(** The three strict comparisons the code uses: [v === undefined],
    [v === null], [v === '']. *)
Definition is_undefined (v : Js) : bool :=
  match v with JUndefined => true | _ => false end.
Definition is_null (v : Js) : bool :=
  match v with JNull => true | _ => false end.
Definition is_empty_string (v : Js) : bool :=
  match v with JStr s => (s =? EmptyString)%string | _ => false end.

(** Property read [o.k] on an object: [undefined] when the key is absent. *)
Fixpoint obj_get (o : Obj) (k : string) : Js :=
  match o with
  | [] => JUndefined
  | (k', v) :: r => if (k' =? k)%string then v else obj_get r k
  end.

(** Property write [o.k = v]: in place when the key exists, appended last
    otherwise. *)
Fixpoint obj_set (o : Obj) (k : string) (v : Js) : Obj :=
  match o with
  | [] => [(k, v)]
  | (k', v') :: r =>
      if (k' =? k)%string then (k', v) :: r else (k', v') :: obj_set r k v
  end.

(** Object spread [{...base, ...extra}]. *)
Definition obj_spread (base extra : Obj) : Obj :=
  fold_left (fun acc kv => obj_set acc (fst kv) (snd kv)) extra base.

Definition obj_keys (o : Obj) : list string := map fst o.

(** Optional chaining [v?.k]: [undefined] on [undefined] and [null]; a
    property read otherwise.  Strings and arrays own [length]; the other
    primitives own none of the names read below. *)
Definition opt_get (v : Js) (k : string) : Js :=
  match v with
  | JObj o => obj_get o k
  | JStr s => if (k =? "length")%string then JNum (Z.of_nat (String.length s))
              else JUndefined
  | JArr l => if (k =? "length")%string then JNum (Z.of_nat (List.length l))
              else JUndefined
  | _ => JUndefined
  end.

(** What a [throw] carries.  An [Error] instance has a name, a message and
    the stack text the engine captured. *)
Inductive Thrown : Type :=
| ErrorObj (name message stack : string)
| Raised (v : Js).

(** [error instanceof Error ? error.message : String(error)] *)
Definition error_message (e : Thrown) : string :=
  match e with
  | ErrorObj _ m _ => m
  | Raised v => js_String v
  end.

(** [`${error}`]: [Error.prototype.toString] on an [Error]. *)
Definition error_toString (e : Thrown) : string :=
  match e with
  | ErrorObj n m _ =>
      if (n =? EmptyString)%string then m
      else if (m =? EmptyString)%string then n
      else n ++ ": " ++ m
  | Raised v => js_String v
  end.

End JS.
Import JS.

(* ================================================================== *)
(** ** The outside world: URLs, fetch, responses *)

(** A [URL] object: the text handed to the constructor and the entries
    appended to [searchParams], in order.  [url_href] is that text as
    given, before parsing: what the parser finds after a [?] in it is
    given by [request_query] (below), and statements about the query keys
    of a request whose path is built from inputs are made through it.
    Percent-encoding and dot-segment resolution are outside the
    embedding. *)
Record Url : Type := mkUrl {
  url_href : string;
  url_searchParams : list (string * string)
}.

Record Request : Type := mkRequest {
  req_url : Url;
  req_headers : list (string * string)
}.

(** [Response]: status line and what [response.json()] settles to. *)
Record Response : Type := mkResponse {
  resp_status : Z;
  resp_statusText : string;
  resp_json : Thrown + Js
}.

(** [Response.ok], as the Fetch standard defines it. *)
Definition resp_ok (r : Response) : bool :=
  (200 <=? resp_status r) && (resp_status r <=? 299).

Inductive FetchOutcome : Type :=
| Rejected (e : Thrown)
| Responded (r : Response).

(** The network answers a request knowing the calls made before it. *)
Definition Network : Type := list Request -> Request -> FetchOutcome.

(* ================================================================== *)
(** ** Async computations *)

Inductive Completion (A : Type) : Type :=
| Normal (a : A)
| Throw (e : Thrown).
Arguments Normal {A} a.
Arguments Throw {A} e.

(** The state is the log of [fetch] invocations, oldest first. *)
Definition M (A : Type) : Type := list Request -> Completion A * list Request.

Definition ret {A} (a : A) : M A := fun log => (Normal a, log).

Definition throw {A} (e : Thrown) : M A := fun log => (Throw e, log).

Definition bind {A B} (m : M A) (k : A -> M B) : M B :=
  fun log =>
    match m log with
    | (Normal a, log') => k a log'
    | (Throw e, log') => (Throw e, log')
    end.

(** [try { m } catch (error) { h error }] *)
Definition try_catch {A} (m : M A) (h : Thrown -> M A) : M A :=
  fun log =>
    match m log with
    | (Normal a, log') => (Normal a, log')
    | (Throw e, log') => h e log'
    end.

Notation "x <- m ;; k" := (bind m (fun x => k))
  (at level 61, m at next level, right associativity).

(** Number of [fetch] calls a computation adds when started from [log]. *)
Definition fetches {A} (m : M A) (log : list Request) : nat :=
  (List.length (snd (m log)) - List.length log)%nat.

Definition outcome {A} (m : M A) (log : list Request) : Completion A :=
  fst (m log).

(* ================================================================== *)
(** ** Surface data *)

(** What Express hands a route: the parsed query string and the path
    parameters. *)
Record HttpRequest : Type := mkHttpRequest {
  query : Obj;
  params : Obj
}.

(** [res.status(s).json(body)]; the body is the object given to [json],
    before serialisation. *)
Record HttpResponse : Type := mkHttpResponse {
  http_status : Z;
  http_body : Js
}.

(** [res.json(body)] on a fresh response: status 200. *)
Definition res_json (body : Js) : HttpResponse := mkHttpResponse 200 body.

(** Text of a content block: a literal, or [JSON.stringify(v, null, 2)] of
    a value, kept as the value it serialises. *)
Inductive Text : Type :=
| Lit (s : string)
| JSON_stringify (v : Js).

Record ContentBlock : Type := mkContentBlock {
  block_type : string;
  block_text : Text
}.

(** The [{ content: [...] }] a tool handler resolves to. *)
Record ToolResult : Type := mkToolResult {
  content : list ContentBlock
}.

Definition text_result (t : Text) : ToolResult :=
  mkToolResult [mkContentBlock "text" t].

(** The object a tool result carries as JSON text, when it is one such
    block. *)
Definition tool_envelope (r : ToolResult) : option Js :=
  match content r with
  | [mkContentBlock _ (JSON_stringify v)] => Some v
  | _ => None
  end.

Record PromptMessage : Type := mkPromptMessage {
  role : string;
  message_type : string;
  message_text : string
}.

Record PromptResult : Type := mkPromptResult {
  messages : list PromptMessage
}.

Definition user_prompt (t : string) : PromptResult :=
  mkPromptResult [mkPromptMessage "user" "text" t].

Record ResourceContent : Type := mkResourceContent {
  uri : string;
  mimeType : string;
  resource_text : Text
}.

Record ResourceResult : Type := mkResourceResult {
  contents : list ResourceContent
}.

(** One entry of [PAYMENT_CONFIG]. *)
Record PaymentRule : Type := mkPaymentRule {
  price : string;
  network : string
}.

(** [PAYMENT_CONFIG] of [config/payment.config.ts]; its prices are not part
    of the sources at hand and stay abstract. *)
Record PaymentConfig : Type := mkPaymentConfig {
  tools_get_simple_price : PaymentRule;
  tools_get_trending_coins : PaymentRule;
  tools_get_new_coins : PaymentRule;
  tools_get_token_price_by_address : PaymentRule;
  jsonRpc : PaymentRule
}.

Inductive RouterId : Type := healthRoutes | mcpRoutes | coingeckoRoutes.

(** A layer of the Express application, in registration order. *)
Inductive Layer : Type :=
| Cors
| ExpressJson
| PaymentMiddleware (payTo : Js) (routes : list (string * PaymentRule))
                    (facilitator_url : Js)
| Mount (prefix : string) (router : RouterId)
| ErrorHandlerLayer.

Definition is_payment_layer (l : Layer) : bool :=
  match l with PaymentMiddleware _ _ _ => true | _ => false end.

Definition COINGECKO_BASE_URL : string := "https://api.coingecko.com/api/v3".

(* ================================================================== *)
(** ** The program *)

Section Program.

(** [process.env] *)
Variable env : string -> option string.
(** the network behind [fetch] *)
Variable net : Network.
(** the stack text the engine attaches to an [Error] it constructs *)
Variable stack_trace : string.
(** [new Date().toISOString()] *)
Variable now : string.
(** [PAYMENT_CONFIG] *)
Variable PAYMENT_CONFIG : PaymentConfig.

(** [process.env.NAME]: a string, or [undefined]. *)
Definition process_env (name : string) : Js :=
  match env name with
  | Some s => JStr s
  | None => JUndefined
  end.

(** [new Error(message)] *)
Definition new_Error (message : string) : Thrown :=
  ErrorObj "Error" message stack_trace.

(** [await fetch(url.toString(), { headers })]: one entry in the log,
    whatever the network answers. *)
Definition fetch (rq : Request) : M Response :=
  fun log =>
    match net log rq with
    | Rejected e => (Throw e, (log ++ [rq])%list)
    | Responded r => (Normal r, (log ++ [rq])%list)
    end.

(** [await response.json()] *)
Definition response_json (r : Response) : M Js :=
  match resp_json r with
  | inl e => throw e
  | inr v => ret v
  end.

(** Property read [v.k] on a value that may be [undefined] or [null]: those
    two raise a [TypeError]. *)
Definition member (v : Js) (k : string) : M Js :=
  match v with
  | JUndefined | JNull =>
      throw (ErrorObj "TypeError"
               ("Cannot read properties of " ++ js_String v
                  ++ " (reading '" ++ k ++ "')")
               stack_trace)
  | _ => ret (opt_get v k)
  end.

(** Object destructuring [const { k, ... } = v]: a [TypeError] on
    [undefined] and [null]. *)
Definition destructure (v : Js) (k : string) : M unit :=
  match v with
  | JUndefined | JNull =>
      throw (ErrorObj "TypeError"
               ("Cannot destructure property '" ++ k ++ "' of 'args' as it is "
                  ++ js_String v ++ ".")
               stack_trace)
  | _ => ret tt
  end.

(* ------------------------------------------------------------------ *)
(** *** Upstream client

    [callCoinGeckoAPI] is declared twice with the same body: at the top of
    [coingecko.routes.ts] and as a private method of [MCPServer]. *)

(** The test of the [forEach] body. *)
Definition keep_entry (kv : string * Js) : bool :=
  negb (is_undefined (snd kv)) && negb (is_null (snd kv))
  && negb (is_empty_string (snd kv)).

(** [url.searchParams.append(key, value)] stores the value as a string. *)
Definition append_entry (kv : string * Js) : string * string :=
  (fst kv, js_String (snd kv)).

Definition build_url (endpoint : string) (params : option Obj) : Url :=
  mkUrl (COINGECKO_BASE_URL ++ endpoint)
        match params with
        | Some entries => map append_entry (filter keep_entry entries)
        | None => []
        end.

Definition request_headers : list (string * string) :=
  [("Accept", "application/json");
   ("x-cg-demo-api-key", js_String (process_env "COINGEKO_API_KEY"))].

Definition build_request (endpoint : string) (params : option Obj) : Request :=
  mkRequest (build_url endpoint params) request_headers.

Definition callCoinGeckoAPI (endpoint : string) (params : option Obj) : M Js :=
  response <- fetch (build_request endpoint params) ;;
  if negb (resp_ok response) then
    throw (new_Error ("CoinGecko API error: "
                        ++ js_String (JNum (resp_status response)) ++ " "
                        ++ resp_statusText response))
  else
    response_json response.

(* ------------------------------------------------------------------ *)
(** *** HTTP routes ([coingecko.routes.ts]) *)

(** [if (v) params.k = v] *)
Definition set_if_truthy (o : Obj) (k : string) (v : Js) : Obj :=
  if truthy v then obj_set o k v else o.

(** [if (v !== undefined) params.k = v] *)
Definition set_if_defined (o : Obj) (k : string) (v : Js) : Obj :=
  if negb (is_undefined v) then obj_set o k v else o.

(** [Object.keys(params).length > 0 ? params : undefined] *)
Definition params_or_undefined (o : Obj) : option Obj :=
  if (0 <? Z.of_nat (List.length (obj_keys o))) then Some o else None.

(** [router.get("/simple/price", ...)] *)
Definition route_simple_price (req : HttpRequest) : M HttpResponse :=
  try_catch
    (let ids := obj_get (query req) "ids" in
     let vs_currencies := obj_get (query req) "vs_currencies" in
     let include_market_cap := obj_get (query req) "include_market_cap" in
     let include_24hr_vol := obj_get (query req) "include_24hr_vol" in
     let include_24hr_change := obj_get (query req) "include_24hr_change" in
     let include_last_updated_at :=
       obj_get (query req) "include_last_updated_at" in
     let precision := obj_get (query req) "precision" in
     if negb (truthy ids) || negb (truthy vs_currencies) then
       ret (mkHttpResponse 400
              (JObj [("error", JStr "Missing required parameters");
                     ("required", JArr [JStr "ids"; JStr "vs_currencies"]);
                     ("message",
                      JStr "Both 'ids' and 'vs_currencies' are required parameters")]))
     else
       let p0 : Obj := [("ids", ids); ("vs_currencies", vs_currencies)] in
       let p1 := set_if_truthy p0 "include_market_cap" include_market_cap in
       let p2 := set_if_truthy p1 "include_24hr_vol" include_24hr_vol in
       let p3 := set_if_truthy p2 "include_24hr_change" include_24hr_change in
       let p4 := set_if_truthy p3 "include_last_updated_at"
                   include_last_updated_at in
       let p5 := set_if_truthy p4 "precision" precision in
       data <- callCoinGeckoAPI "/simple/price" (Some p5) ;;
       ret (res_json (JObj [("success", JBool true);
                            ("data", data);
                            ("parameters", JObj p5)])))
    (fun error =>
       ret (mkHttpResponse 500
              (JObj [("error", JStr "Failed to fetch price data");
                     ("message", JStr (error_message error))]))).

(** [router.get("/search/trending", ...)] *)
Definition route_search_trending (req : HttpRequest) : M HttpResponse :=
  try_catch
    (data <- callCoinGeckoAPI "/search/trending" None ;;
     ret (res_json (JObj [("success", JBool true);
                          ("data", data);
                          ("message",
                           JStr "Trending coins fetched successfully")])))
    (fun error =>
       ret (mkHttpResponse 500
              (JObj [("error", JStr "Failed to fetch trending coins");
                     ("message", JStr (error_message error))]))).

(** [router.get("/coins/list/new", ...)] *)
Definition route_coins_list_new (req : HttpRequest) : M HttpResponse :=
  try_catch
    (data <- callCoinGeckoAPI "/coins/list/new" None ;;
     ret (res_json (JObj [("success", JBool true);
                          ("data", data);
                          ("message",
                           JStr "Newly listed coins fetched successfully")])))
    (fun error =>
       ret (mkHttpResponse 500
              (JObj [("error", JStr "Failed to fetch new coins");
                     ("message", JStr (error_message error))]))).

(** The template literal [`/coins/${chainId}/contract/${tokenAddress}`] *)
Definition token_endpoint (chainId tokenAddress : Js) : string :=
  "/coins/" ++ js_String chainId ++ "/contract/" ++ js_String tokenAddress.

(** The six optional assignments shared, line for line, by the route and
    the tool handler of token-by-address. *)
Definition token_params (src : string -> Js) : Obj :=
  let p0 : Obj := [] in
  let p1 := set_if_defined p0 "localization" (src "localization") in
  let p2 := set_if_defined p1 "tickers" (src "tickers") in
  let p3 := set_if_defined p2 "market_data" (src "market_data") in
  let p4 := set_if_defined p3 "community_data" (src "community_data") in
  let p5 := set_if_defined p4 "developer_data" (src "developer_data") in
  set_if_defined p5 "sparkline" (src "sparkline").

(** [router.get("/coins/:chainId/contract/:tokenAddress", ...)] *)
Definition route_token_by_address (req : HttpRequest) : M HttpResponse :=
  try_catch
    (let chainId := obj_get (params req) "chainId" in
     let tokenAddress := obj_get (params req) "tokenAddress" in
     if negb (truthy chainId) || negb (truthy tokenAddress) then
       ret (mkHttpResponse 400
              (JObj [("error", JStr "Missing required path parameters");
                     ("required", JArr [JStr "chainId"; JStr "tokenAddress"]);
                     ("message",
                      JStr "Both 'chainId' and 'tokenAddress' are required in the URL path")]))
     else
       let p := token_params (obj_get (query req)) in
       let endpoint := token_endpoint chainId tokenAddress in
       data <- callCoinGeckoAPI endpoint (params_or_undefined p) ;;
       ret (res_json
              (JObj [("success", JBool true);
                     ("data", data);
                     ("parameters",
                      JObj (obj_spread [("chainId", chainId);
                                        ("tokenAddress", tokenAddress)] p))])))
    (fun error =>
       ret (mkHttpResponse 500
              (JObj [("error", JStr "Failed to fetch token data");
                     ("message", JStr (error_message error))]))).

(* ------------------------------------------------------------------ *)
(** *** MCP server ([server.ts], class [MCPServer]) *)

(** [if (v !== undefined) params.k = String(v)] *)
Definition set_String_if_defined (o : Obj) (k : string) (v : Js) : Obj :=
  if negb (is_undefined v) then obj_set o k (JStr (js_String v)) else o.

Definition handleGetSimplePrice (args : Js) : M ToolResult :=
  try_catch
    (ids <- member args "ids" ;;
     vs_currencies <- member args "vs_currencies" ;;
     let p0 : Obj := [("ids", ids); ("vs_currencies", vs_currencies)] in
     include_market_cap <- member args "include_market_cap" ;;
     let p1 := set_String_if_defined p0 "include_market_cap"
                 include_market_cap in
     include_24hr_vol <- member args "include_24hr_vol" ;;
     let p2 := set_String_if_defined p1 "include_24hr_vol" include_24hr_vol in
     include_24hr_change <- member args "include_24hr_change" ;;
     let p3 := set_String_if_defined p2 "include_24hr_change"
                 include_24hr_change in
     include_last_updated_at <- member args "include_last_updated_at" ;;
     let p4 := set_String_if_defined p3 "include_last_updated_at"
                 include_last_updated_at in
     precision <- member args "precision" ;;
     let p5 := set_String_if_defined p4 "precision" precision in
     data <- callCoinGeckoAPI "/simple/price" (Some p5) ;;
     ret (text_result
            (JSON_stringify (JObj [("success", JBool true);
                                   ("data", data);
                                   ("parameters", JObj p5)]))))
    (fun error =>
       ret (text_result
              (JSON_stringify
                 (JObj [("error", JStr "Failed to fetch price data");
                        ("message", JStr (error_message error))])))).

Definition handleGetTrendingCoins (args : Js) : M ToolResult :=
  try_catch
    (data <- callCoinGeckoAPI "/search/trending" None ;;
     ret (text_result
            (JSON_stringify
               (JObj [("success", JBool true);
                      ("data", data);
                      ("message",
                       JStr "Trending coins fetched successfully")]))))
    (fun error =>
       ret (text_result
              (JSON_stringify
                 (JObj [("error", JStr "Failed to fetch trending coins");
                        ("message", JStr (error_message error))])))).

Definition handleGetNewCoins (args : Js) : M ToolResult :=
  try_catch
    (data <- callCoinGeckoAPI "/coins/list/new" None ;;
     ret (text_result
            (JSON_stringify
               (JObj [("success", JBool true);
                      ("data", data);
                      ("message",
                       JStr "Newly listed coins fetched successfully")]))))
    (fun error =>
       ret (text_result
              (JSON_stringify
                 (JObj [("error", JStr "Failed to fetch new coins");
                        ("message", JStr (error_message error))])))).

(** [optionalParams] is the rest of the destructuring; the six names read
    from it are read from [args] itself. *)
Definition handleGetTokenPriceByAddress (args : Js) : M ToolResult :=
  try_catch
    (_ <- destructure args "chainId" ;;
     let chainId := opt_get args "chainId" in
     let tokenAddress := opt_get args "tokenAddress" in
     let p := token_params (opt_get args) in
     let endpoint := token_endpoint chainId tokenAddress in
     data <- callCoinGeckoAPI endpoint (params_or_undefined p) ;;
     ret (text_result
            (JSON_stringify
               (JObj [("success", JBool true);
                      ("data", data);
                      ("parameters",
                       JObj (obj_spread [("chainId", chainId);
                                         ("tokenAddress", tokenAddress)]
                                        p))]))))
    (fun error =>
       ret (text_result
              (JSON_stringify
                 (JObj [("error", JStr "Failed to fetch token data");
                        ("message", JStr (error_message error))])))).

(** The [CallToolRequestSchema] request handler. *)
Definition call_tool_request (name : string) (args : Js) : M ToolResult :=
  if (name =? "get_simple_price")%string then handleGetSimplePrice args
  else if (name =? "get_trending_coins")%string then handleGetTrendingCoins args
  else if (name =? "get_new_coins")%string then handleGetNewCoins args
  else if (name =? "get_token_price_by_address")%string
       then handleGetTokenPriceByAddress args
  else ret (text_result (Lit ("Error: Unknown tool " ++ name))).

(** The public method [callTool]. *)
Definition callTool (name : string) (args : Js) : M ToolResult :=
  if (name =? "get_simple_price")%string then handleGetSimplePrice args
  else if (name =? "get_trending_coins")%string then handleGetTrendingCoins args
  else if (name =? "get_new_coins")%string then handleGetNewCoins args
  else if (name =? "get_token_price_by_address")%string
       then handleGetTokenPriceByAddress args
  else throw (new_Error ("Unknown tool: " ++ name)).

(** Names and [inputSchema.required] of [getTools()]. *)
Definition getTools : list (string * list string) :=
  [("get_simple_price", ["ids"; "vs_currencies"]);
   ("get_trending_coins", []);
   ("get_new_coins", []);
   ("get_token_price_by_address", ["chainId"; "tokenAddress"])].

Definition tool_names : list string := map fst getTools.

(** The [uri] fields of [getResources()]. *)
Definition resource_uris : list string :=
  ["coingecko://market/status"; "coingecko://trending/coins";
   "coingecko://new/coins"; "coingecko://api/info"].

(* Prompt handlers *)

Definition handleCryptoPriceCheckPrompt (args : Js) : M PromptResult :=
  let tokens := js_or (opt_get args "tokens") (JStr "bitcoin,ethereum,solana") in
  let currencies := js_or (opt_get args "currencies") (JStr "usd,eur") in
  ret (user_prompt
         ("Please check the current prices for " ++ js_String tokens
            ++ " in " ++ js_String currencies
            ++ ". Use the get_simple_price tool with these parameters.")).

Definition handleMarketAnalysisPrompt : M PromptResult :=
  ret (user_prompt
         "Please provide a comprehensive crypto market analysis. First, get the trending coins using get_trending_coins, then fetch the newly listed coins using get_new_coins. Analyze the data and provide insights about current market trends.").

Definition handleTokenResearchPrompt (args : Js) : M PromptResult :=
  let chain := js_or (opt_get args "chain") (JStr "ethereum") in
  let address := opt_get args "address" in
  if negb (truthy address) then
    throw (new_Error "Token address is required for token research")
  else
    ret (user_prompt
           ("Please research the token at address " ++ js_String address
              ++ " on " ++ js_String chain
              ++ " blockchain. Use the get_token_price_by_address tool with market_data=true to get comprehensive information including price, market cap, volume, and other key metrics.")).

(** The [GetPromptRequestSchema] request handler. *)
Definition get_prompt_request (name : string) (args : Js) : M PromptResult :=
  if (name =? "crypto_price_check")%string
  then handleCryptoPriceCheckPrompt args
  else if (name =? "market_analysis")%string then handleMarketAnalysisPrompt
  else if (name =? "token_research")%string
       then handleTokenResearchPrompt args
  else throw (new_Error ("Unknown prompt: " ++ name)).

(* Resource handlers *)

Definition handleMarketStatusResource : M ResourceResult :=
  try_catch
    (trendingData <- callCoinGeckoAPI "/search/trending" None ;;
     priceData <- callCoinGeckoAPI "/simple/price"
                    (Some [("ids", JStr "bitcoin,ethereum");
                           ("vs_currencies", JStr "usd");
                           ("include_market_cap", JStr "true");
                           ("include_24hr_vol", JStr "true");
                           ("include_24hr_change", JStr "true")]) ;;
     coins <- member trendingData "coins" ;;
     ret (mkResourceResult
            [mkResourceContent "coingecko://market/status" "application/json"
               (JSON_stringify
                  (JObj [("status", JStr "active");
                         ("timestamp", JStr now);
                         ("topCoins", priceData);
                         ("trendingCount",
                          js_or (opt_get coins "length") (JNum 0));
                         ("summary",
                          JStr "Live crypto market data from CoinGecko")]))]))
    (fun error =>
       throw (new_Error ("Failed to fetch market status: "
                           ++ error_toString error))).

Definition handleTrendingCoinsResource : M ResourceResult :=
  try_catch
    (data <- callCoinGeckoAPI "/search/trending" None ;;
     ret (mkResourceResult
            [mkResourceContent "coingecko://trending/coins" "application/json"
               (JSON_stringify data)]))
    (fun error =>
       throw (new_Error ("Failed to fetch trending coins: "
                           ++ error_toString error))).

Definition handleNewCoinsResource : M ResourceResult :=
  try_catch
    (data <- callCoinGeckoAPI "/coins/list/new" None ;;
     ret (mkResourceResult
            [mkResourceContent "coingecko://new/coins" "application/json"
               (JSON_stringify data)]))
    (fun error =>
       throw (new_Error ("Failed to fetch new coins: "
                           ++ error_toString error))).

Definition apiInfo : string :=
"CoinGecko API Information
=============================

Base URL: https://api.coingecko.com/api/v3

Available Tools:
1. get_simple_price - Get current prices for cryptocurrencies
   Endpoint: /simple/price
   Required: ids, vs_currencies
   
2. get_trending_coins - Get trending cryptocurrencies
   Endpoint: /search/trending
   
3. get_new_coins - Get newly listed coins
   Endpoint: /coins/list/new
   
4. get_token_price_by_address - Get token info by contract address
   Endpoint: /coins/{chainId}/contract/{tokenAddress}
   Required: chainId, tokenAddress

Supported Blockchains:
- ethereum
- polygon-pos
- binance-smart-chain
- avalanche
- arbitrum-one
- optimistic-ethereum
- base
- And many more...

Rate Limits:
- Demo API: 30 calls/minute
- Pro API: Higher limits available

Authentication:
- API Key via x-cg-demo-api-key header
".

Definition handleApiInfoResource : M ResourceResult :=
  ret (mkResourceResult
         [mkResourceContent "coingecko://api/info" "text/plain" (Lit apiInfo)]).

(** The [ReadResourceRequestSchema] request handler. *)
Definition read_resource_request (u : string) : M ResourceResult :=
  if (u =? "coingecko://market/status")%string
  then handleMarketStatusResource
  else if (u =? "coingecko://trending/coins")%string
       then handleTrendingCoinsResource
  else if (u =? "coingecko://new/coins")%string then handleNewCoinsResource
  else if (u =? "coingecko://api/info")%string then handleApiInfoResource
  else throw (new_Error ("Unknown resource: " ++ u)).

(* ------------------------------------------------------------------ *)
(** *** Facade ([tool.controller.ts], class [ToolController]) *)

Definition getSimplePrice
  (ids vs_currencies include_market_cap include_24hr_vol include_24hr_change
     include_last_updated_at precision : Js) : M ToolResult :=
  callTool "get_simple_price"
    (JObj [("ids", ids);
           ("vs_currencies", vs_currencies);
           ("include_market_cap", include_market_cap);
           ("include_24hr_vol", include_24hr_vol);
           ("include_24hr_change", include_24hr_change);
           ("include_last_updated_at", include_last_updated_at);
           ("precision", precision)]).

Definition getTrendingCoins : M ToolResult :=
  callTool "get_trending_coins" (JObj []).

Definition getNewCoins : M ToolResult :=
  callTool "get_new_coins" (JObj []).

Definition getTokenPriceByAddress
  (chainId tokenAddress localization tickers market_data community_data
     developer_data sparkline : Js) : M ToolResult :=
  callTool "get_token_price_by_address"
    (JObj [("chainId", chainId);
           ("tokenAddress", tokenAddress);
           ("localization", localization);
           ("tickers", tickers);
           ("market_data", market_data);
           ("community_data", community_data);
           ("developer_data", developer_data);
           ("sparkline", sparkline)]).

(* ------------------------------------------------------------------ *)
(** *** Application and payment gate ([index.ts]) *)

(** Modelled from the spec: [getFacilitatorUrl] of
    [config/payment.config.ts], a file outside the sources at hand; the
    facilitator URL is read from the process configuration and is [null]
    when not configured ([process.env.FACILITATOR_URL || null]; [index.ts]
    names the two variables, [FACILITATOR_URL] and [ADDRESS], in its
    start-up message). *)
Definition getFacilitatorUrl : Js :=
  js_or (process_env "FACILITATOR_URL") JNull.

(** Modelled from the spec: [getPaymentAddress] of
    [config/payment.config.ts]; the payout address, [null] when not
    configured ([process.env.ADDRESS || null]). *)
Definition getPaymentAddress : Js :=
  js_or (process_env "ADDRESS") JNull.

(** Modelled from the spec: [isPaymentConfigured] of
    [config/payment.config.ts]; both values present. *)
Definition isPaymentConfigured : bool :=
  truthy (js_and getFacilitatorUrl getPaymentAddress).

Definition facilitatorUrl : Js := getFacilitatorUrl.
Definition payTo : Js := getPaymentAddress.

(** The route table handed to [paymentMiddleware]. *)
Definition payment_routes : list (string * PaymentRule) :=
  [("GET /mcp/simple/price", tools_get_simple_price PAYMENT_CONFIG);
   ("GET /mcp/search/trending", tools_get_trending_coins PAYMENT_CONFIG);
   ("GET /mcp/coins/list/new", tools_get_new_coins PAYMENT_CONFIG);
   ("GET /mcp/coins/:chainId/contract/:tokenAddress",
    tools_get_token_price_by_address PAYMENT_CONFIG);
   ("GET /mcp", jsonRpc PAYMENT_CONFIG)].

(** The [app.use] calls of [index.ts], in order. *)
Definition app : list Layer :=
  ([Cors; ExpressJson]
   ++ (if truthy (js_and facilitatorUrl payTo)
       then [PaymentMiddleware payTo payment_routes facilitatorUrl]
       else [])
   ++ [Mount "/" healthRoutes;
       Mount "/mcp" mcpRoutes;
       Mount "/mcp" coingeckoRoutes;
       ErrorHandlerLayer])%list.

(** The layers a request passes before it reaches a router: those
    registered ahead of the router's mount. *)
Fixpoint layers_ahead_of (r : RouterId) (stack : list Layer) : list Layer :=
  match stack with
  | [] => []
  | Mount p r' :: rest =>
      match r, r' with
      | healthRoutes, healthRoutes
      | mcpRoutes, mcpRoutes
      | coingeckoRoutes, coingeckoRoutes => []
      | _, _ => Mount p r' :: layers_ahead_of r rest
      end
  | l :: rest => l :: layers_ahead_of r rest
  end.

(** The payment gate is enabled when a payment layer is installed. *)
Definition gate_enabled : bool := existsb is_payment_layer app.

(** The paths the CoinGecko router serves, under its ["/mcp"] mount. *)
Definition operation_routes : list string :=
  ["/simple/price"; "/search/trending"; "/coins/list/new";
   "/coins/:chainId/contract/:tokenAddress"].

(* ------------------------------------------------------------------ *)
(** *** Descriptor routes (the router with ["/"], ["/health"], ["/info"])

    ["/health"] answers with [process.uptime()], a fractional number of
    seconds, and is left out. *)

(** [PAYMENT_CONFIG.tools.<tool>.price] and [PAYMENT_CONFIG.jsonRpc.price]
    as JSON values. *)
Definition price_of (rule : PaymentRule) : Js := JStr (price rule).

(** [router.get("/", ...)] *)
Definition route_root (req : HttpRequest) : HttpResponse :=
  res_json
    (JObj
       [("name", JStr "CoinGecko MCP Server");
        ("version", JStr "1.0.0");
        ("status", JStr "healthy");
        ("paymentEnabled", JBool isPaymentConfigured);
        ("endpoints",
         JObj
           [("initialize", JStr "POST /mcp/initialize");
            ("tools",
             JObj
               [("list", JStr "GET/POST /mcp/tools");
                ("get_simple_price", JStr "GET /coingecko/simple/price");
                ("get_trending_coins", JStr "GET /coingecko/search/trending");
                ("get_new_coins", JStr "GET /coingecko/coins/list/new");
                ("get_token_price_by_address",
                 JStr "GET /coingecko/coins/:chainId/contract/:tokenAddress")]);
            ("prompts", JObj [("list", JStr "GET/POST /mcp/prompts")]);
            ("resources", JObj [("list", JStr "GET/POST /mcp/resources")]);
            ("jsonRpc", JStr "POST /mcp");
            ("health", JStr "GET /health");
            ("info", JStr "GET /info")]);
        ("pricing",
         if isPaymentConfigured then
           JObj
             [("get_simple_price",
               price_of (tools_get_simple_price PAYMENT_CONFIG));
              ("get_trending_coins",
               price_of (tools_get_trending_coins PAYMENT_CONFIG));
              ("get_new_coins", price_of (tools_get_new_coins PAYMENT_CONFIG));
              ("get_token_price_by_address",
               price_of (tools_get_token_price_by_address PAYMENT_CONFIG));
              ("jsonRpc", price_of (jsonRpc PAYMENT_CONFIG));
              ("network", JStr "base-sepolia")]
         else JNull);
        ("examples",
         JObj
           [("get_simple_price",
             JObj [("get",
                    JStr "/coingecko/simple/price?ids=bitcoin,ethereum&vs_currencies=usd")]);
            ("get_trending_coins",
             JObj [("get", JStr "/coingecko/search/trending")]);
            ("get_new_coins",
             JObj [("get", JStr "/coingecko/coins/list/new")]);
            ("get_token_price_by_address",
             JObj [("get", JStr "/coingecko/coins/ethereum/contract/0x...")])]);
        ("capabilities",
         JObj
           [("tools",
             JArr [JStr "get_simple_price"; JStr "get_trending_coins";
                   JStr "get_new_coins"; JStr "get_token_price_by_address"]);
            ("prompts",
             JArr [JStr "crypto_price_check"; JStr "market_analysis";
                   JStr "token_research"]);
            ("resources",
             JArr [JStr "coingecko://market/status";
                   JStr "coingecko://trending/coins";
                   JStr "coingecko://new/coins";
                   JStr "coingecko://api/info"])])]).

(** [router.get("/info", ...)] *)
Definition route_info (req : HttpRequest) : HttpResponse :=
  res_json
    (JObj
       [("name", JStr "coingecko-mcp-server");
        ("version", JStr "1.0.0");
        ("protocol", JStr "Model Context Protocol");
        ("description",
         JStr "MCP server providing CoinGecko crypto market data tools");
        ("paymentEnabled", JBool isPaymentConfigured);
        ("paymentNetwork",
         if isPaymentConfigured then JStr "base-sepolia" else JNull);
        ("capabilities",
         JObj
           [("tools",
             JObj
               [("get_simple_price",
                 JStr "Get current prices for multiple crypto tokens");
                ("get_trending_coins",
                 JStr "Get currently trending coins on CoinGecko");
                ("get_new_coins", JStr "Get newly listed coins on CoinGecko");
                ("get_token_price_by_address",
                 JStr "Get token data by contract address")]);
            ("prompts",
             JObj
               [("crypto_price_check",
                 JStr "Get current prices for popular cryptocurrencies");
                ("market_analysis",
                 JStr "Comprehensive crypto market analysis with trending and new coins");
                ("token_research",
                 JStr "Deep dive research on a specific token by contract address")]);
            ("resources",
             JObj
               [("coingecko://market/status",
                 JStr "Current crypto market overview and statistics");
                ("coingecko://trending/coins",
                 JStr "Currently trending cryptocurrencies");
                ("coingecko://new/coins",
                 JStr "Recently listed cryptocurrencies on CoinGecko");
                ("coingecko://api/info",
                 JStr "CoinGecko API documentation and available endpoints")])]);
        ("pricing",
         if isPaymentConfigured then
           JObj
             [("tools",
               JObj
                 [("get_simple_price",
                   price_of (tools_get_simple_price PAYMENT_CONFIG));
                  ("get_trending_coins",
                   price_of (tools_get_trending_coins PAYMENT_CONFIG));
                  ("get_new_coins",
                   price_of (tools_get_new_coins PAYMENT_CONFIG));
                  ("get_token_price_by_address",
                   price_of (tools_get_token_price_by_address PAYMENT_CONFIG))]);
              ("jsonRpc", price_of (jsonRpc PAYMENT_CONFIG))]
         else JNull)]).

(* ------------------------------------------------------------------ *)
(** *** Discovery metadata of [MCPServer] *)

(** Names and arguments (name, [required]) of [getPrompts()]; the
    [ListPromptsRequestSchema] handler returns the same list. *)
Definition getPrompts : list (string * list (string * bool)) :=
  [("crypto_price_check", [("tokens", true); ("currencies", false)]);
   ("market_analysis", []);
   ("token_research", [("chain", true); ("address", true)])].

Definition prompt_names : list string := map fst getPrompts.

(** [uri] and [mimeType] of [getResources()]; the
    [ListResourcesRequestSchema] handler returns the same list. *)
Definition getResources : list (string * string) :=
  [("coingecko://market/status", "application/json");
   ("coingecko://trending/coins", "application/json");
   ("coingecko://new/coins", "application/json");
   ("coingecko://api/info", "text/plain")].

(* ------------------------------------------------------------------ *)
(** *** Vocabulary of the statements *)

(** A required input is absent: [undefined], [null] or the empty string. *)
Definition absent (v : Js) : Prop :=
  v = JUndefined \/ v = JNull \/ v = JStr EmptyString.

(** The two values a property cannot be read from. *)
Definition nullish (v : Js) : bool := is_undefined v || is_null v.

(** What a query string delivers for an optional key: nothing, or a
    non-empty string. *)
Definition unset_or_text (v : Js) : Prop :=
  v = JUndefined \/ exists s, v = JStr s /\ s <> EmptyString.

(** The failure envelope [{ error, message }]. *)
Definition failure_envelope (category : string) (e : Thrown) : Js :=
  JObj [("error", JStr category); ("message", JStr (error_message e))].

(** The success envelope with echoed parameters. *)
Definition success_with_parameters (data parameters : Js) : Js :=
  JObj [("success", JBool true); ("data", data); ("parameters", parameters)].

(** The success envelope of the two operations without inputs. *)
Definition success_with_message (data : Js) (message : string) : Js :=
  JObj [("success", JBool true); ("data", data); ("message", JStr message)].

(** The query map the price route has built when it calls upstream. *)
Definition http_price_params (q : Obj) : Obj :=
  let p0 : Obj := [("ids", obj_get q "ids");
                   ("vs_currencies", obj_get q "vs_currencies")] in
  let p1 := set_if_truthy p0 "include_market_cap"
              (obj_get q "include_market_cap") in
  let p2 := set_if_truthy p1 "include_24hr_vol" (obj_get q "include_24hr_vol") in
  let p3 := set_if_truthy p2 "include_24hr_change"
              (obj_get q "include_24hr_change") in
  let p4 := set_if_truthy p3 "include_last_updated_at"
              (obj_get q "include_last_updated_at") in
  set_if_truthy p4 "precision" (obj_get q "precision").

(** The query map the price tool handler has built when it calls
    upstream. *)
Definition tool_price_params (args : Js) : Obj :=
  let p0 : Obj := [("ids", opt_get args "ids");
                   ("vs_currencies", opt_get args "vs_currencies")] in
  let p1 := set_String_if_defined p0 "include_market_cap"
              (opt_get args "include_market_cap") in
  let p2 := set_String_if_defined p1 "include_24hr_vol"
              (opt_get args "include_24hr_vol") in
  let p3 := set_String_if_defined p2 "include_24hr_change"
              (opt_get args "include_24hr_change") in
  let p4 := set_String_if_defined p3 "include_last_updated_at"
              (opt_get args "include_last_updated_at") in
  set_String_if_defined p4 "precision" (opt_get args "precision").

(** The status text of the error raised on a non-2xx response. *)
Definition upstream_error_message (r : Response) : string :=
  "CoinGecko API error: " ++ js_String (JNum (resp_status r)) ++ " "
    ++ resp_statusText r.

(** How one answer of the network settles a call of the upstream client. *)
Definition settle (o : FetchOutcome) : Completion Js :=
  match o with
  | Rejected e => Throw e
  | Responded r =>
      if resp_ok r then
        match resp_json r with
        | inl e => Throw e
        | inr v => Normal v
        end
      else Throw (new_Error (upstream_error_message r))
  end.

(** An HTTP route and a tool handler behave alike from [log]: the same
    requests reach the network and the tool's JSON text serialises the
    object the route sends as its body. *)
Definition same_behaviour (h : M HttpResponse) (t : M ToolResult)
  (log : list Request) : Prop :=
  snd (h log) = snd (t log)
  /\ exists resp tr,
       fst (h log) = Normal resp /\ fst (t log) = Normal tr
       /\ tool_envelope tr = Some (http_body resp).

(** An HTTP route answers 200 with [success data] when its upstream call
    returns [data], and 500 with the failure envelope of [category] when
    the call throws. *)
Definition http_replies (route : M HttpResponse) (call : M Js)
  (category : string) (success : Js -> Js) (log : list Request) : Prop :=
  (forall data,
      outcome call log = Normal data ->
      outcome route log = Normal (mkHttpResponse 200 (success data)))
  /\ (forall e,
         outcome call log = Throw e ->
         outcome route log
         = Normal (mkHttpResponse 500
                     (JObj [("error", JStr category);
                            ("message", JStr (error_message e))]))).

(** A tool handler resolves to one text block serialising [success data]
    when its upstream call returns [data], and the failure envelope of
    [category] when the call throws. *)
Definition tool_replies (handler : M ToolResult) (call : M Js)
  (category : string) (success : Js -> Js) (log : list Request) : Prop :=
  (forall data,
      outcome call log = Normal data ->
      outcome handler log
      = Normal (text_result (JSON_stringify (success data))))
  /\ (forall e,
         outcome call log = Throw e ->
         outcome handler log
         = Normal (text_result
                     (JSON_stringify
                        (JObj [("error", JStr category);
                               ("message", JStr (error_message e))])))).

(** The body of the 400 answer of the price route. *)
Definition missing_price_parameters : Js :=
  JObj [("error", JStr "Missing required parameters");
        ("required", JArr [JStr "ids"; JStr "vs_currencies"]);
        ("message",
         JStr "Both 'ids' and 'vs_currencies' are required parameters")].

(** The body of the 400 answer of the token-by-address route. *)
Definition missing_path_parameters : Js :=
  JObj [("error", JStr "Missing required path parameters");
        ("required", JArr [JStr "chainId"; JStr "tokenAddress"]);
        ("message",
         JStr "Both 'chainId' and 'tokenAddress' are required in the URL path")].

(** The optional inputs of price lookup and of token-by-address. *)
Definition price_optional_names : list string :=
  ["include_market_cap"; "include_24hr_vol"; "include_24hr_change";
   "include_last_updated_at"; "precision"].

Definition token_optional_names : list string :=
  ["localization"; "tickers"; "market_data"; "community_data";
   "developer_data"; "sparkline"].

(** The envelope inside each surface's wrapper: the body of an HTTP
    answer, the object serialised in a tool result's text block. *)
Definition http_envelope (c : Completion HttpResponse) : option Js :=
  match c with
  | Normal resp => Some (http_body resp)
  | Throw _ => None
  end.

Definition tool_result_envelope (c : Completion ToolResult) : option Js :=
  match c with
  | Normal tr => tool_envelope tr
  | Throw _ => None
  end.

(** The envelope a handler returns, given how its upstream call ended. *)
Definition envelope_law (envelope : option Js) (call : Completion Js)
  (category : string) (success : Js -> Js) : Prop :=
  match call with
  | Normal data => envelope = Some (success data)
  | Throw e =>
      envelope = Some (JObj [("error", JStr category);
                             ("message", JStr (error_message e))])
  end.

(** The declared inputs of price lookup. *)
Definition price_input_names : list string :=
  ("ids" :: "vs_currencies" :: price_optional_names)%list.

(** The two requests of the market-status resource. *)
Definition status_trending_request : Request :=
  build_request "/search/trending" None.

Definition status_price_request : Request :=
  build_request "/simple/price"
    (Some [("ids", JStr "bitcoin,ethereum");
           ("vs_currencies", JStr "usd");
           ("include_market_cap", JStr "true");
           ("include_24hr_vol", JStr "true");
           ("include_24hr_change", JStr "true")]).

(** The JSON document of the market-status resource. *)
Definition market_status_document (priceData trendingCount : Js) : Js :=
  JObj [("status", JStr "active");
        ("timestamp", JStr now);
        ("topCoins", priceData);
        ("trendingCount", trendingCount);
        ("summary", JStr "Live crypto market data from CoinGecko")].

(** Strings held by a JSON array of strings. *)
Definition strings_of (v : Js) : list string :=
  match v with
  | JArr items =>
      flat_map (fun x => match x with JStr s => [s] | _ => [] end) items
  | _ => []
  end.

(** The entry an optional assignment contributes for key [k]: one entry
    holding the converted value when the test passes, none otherwise. *)
Definition entry_when (test : Js -> bool) (conv : Js -> Js)
  (src : string -> Js) (k : string) : Obj :=
  if test (src k) then [(k, conv (src k))] else [].

(** A run of optional assignments over [names], in order. *)
Definition entries_when (test : Js -> bool) (conv : Js -> Js)
  (src : string -> Js) (names : list string) : Obj :=
  flat_map (entry_when test conv src) names.

(** [v !== undefined] *)
Definition is_defined (v : Js) : bool := negb (is_undefined v).

(** [String(v)] as a value. *)
Definition as_text (v : Js) : Js := JStr (js_String v).

(** The rule the payment route table attaches to a route key. *)
Definition payment_rule (key : string) : option PaymentRule :=
  option_map snd
    (find (fun entry => (fst entry =? key)%string) payment_routes).

(** The priced entries of the descriptors and the route key of each. *)
Definition priced_entries : list (string * string) :=
  [("get_simple_price", "GET /mcp/simple/price");
   ("get_trending_coins", "GET /mcp/search/trending");
   ("get_new_coins", "GET /mcp/coins/list/new");
   ("get_token_price_by_address",
    "GET /mcp/coins/:chainId/contract/:tokenAddress");
   ("jsonRpc", "GET /mcp")].

(** [Number.MAX_SAFE_INTEGER]: up to it every integer is a double and
    prints as its decimal digits. *)
Definition MAX_SAFE_INTEGER : Z := 9007199254740991.

(** The values on which [String(v)] returns, and returns [js_String v].
    An object that owns a [toString] property makes the conversion throw a
    [TypeError] (no JSON value is callable); a number beyond the safe
    integers is not printed digit by digit.  [js_String] is meant on
    stringable values only. *)
Fixpoint stringable (v : Js) : bool :=
  match v with
  | JUndefined | JNull | JBool _ | JStr _ => true
  | JNum n => Z.abs n <=? MAX_SAFE_INTEGER
  | JArr items =>
      (fix all (l : list Js) : bool :=
         match l with
         | [] => true
         | x :: r => stringable x && all r
         end) items
  | JObj fields =>
      negb (existsb (fun kv => (fst kv =? "toString")%string) fields)
  end.

(** Every value a query map holds can be stringified. *)
Definition stringable_map (ps : option Obj) : Prop :=
  match ps with
  | Some entries => forall k v, In (k, v) entries -> stringable v = true
  | None => True
  end.

(** The inputs read under [names] can be stringified. *)
Definition stringable_inputs (src : string -> Js) (names : list string)
  : Prop :=
  forall k, In k names -> stringable (src k) = true.

(** A text without [?] and [#], the two marks at which the URL parser cuts
    the query and the fragment off the path. *)
Fixpoint no_query_marks (s : string) : bool :=
  match s with
  | EmptyString => true
  | String c r =>
      negb (Ascii.eqb c "?") && negb (Ascii.eqb c "#") && no_query_marks r
  end.

(** The text up to the first [#]. *)
Fixpoint before_fragment (s : string) : string :=
  match s with
  | EmptyString => EmptyString
  | String c r =>
      if Ascii.eqb c "#" then EmptyString else String c (before_fragment r)
  end.

(** The text after the first [?], if there is one. *)
Fixpoint after_question (s : string) : option string :=
  match s with
  | EmptyString => None
  | String c r => if Ascii.eqb c "?" then Some r else after_question r
  end.

(** The query string [new URL(text)] finds in [text]. *)
Definition href_query (text : string) : string :=
  match after_question (before_fragment text) with
  | Some q => q
  | None => EmptyString
  end.

(** Letters, digits and [- _ . ~]: the characters a query name or value
    keeps, unchanged, through parsing and serialisation. *)
Definition plain_char (c : ascii) : bool :=
  let n := nat_of_ascii c in
  ((48 <=? n) && (n <=? 57) || (65 <=? n) && (n <=? 90)
   || (97 <=? n) && (n <=? 122))%nat
  || Ascii.eqb c "-" || Ascii.eqb c "_" || Ascii.eqb c "." || Ascii.eqb c "~".

Fixpoint all_chars (test : ascii -> bool) (s : string) : bool :=
  match s with
  | EmptyString => true
  | String c r => test c && all_chars test r
  end.

(** The pieces of [s] between occurrences of [sep]. *)
Fixpoint split_on (sep : ascii) (s : string) : list string :=
  match s with
  | EmptyString => [EmptyString]
  | String c r =>
      if Ascii.eqb c sep then EmptyString :: split_on sep r
      else match split_on sep r with
           | [] => [String c EmptyString]
           | piece :: rest => String c piece :: rest
           end
  end.

(** [name=value] cut at its first [=]; the value is empty without one. *)
Fixpoint split_pair (s : string) : string * string :=
  match s with
  | EmptyString => (EmptyString, EmptyString)
  | String c r =>
      if Ascii.eqb c "=" then (EmptyString, r)
      else let (name, value) := split_pair r in (String c name, value)
  end.

(** The entries of a query string, as [URLSearchParams] parses it.
    Decoding of [%xx] and [+] is left out: the parse is given for query
    strings made of plain characters, [=] and [&] only. *)
Definition parse_query (q : string) : option (list (string * string)) :=
  if all_chars (fun c => plain_char c || Ascii.eqb c "=" || Ascii.eqb c "&") q
  then Some (map split_pair
               (filter (fun piece => negb (piece =? EmptyString)%string)
                  (split_on "&" q)))
  else None.

(** The query entries of the request as it is sent: those the URL parser
    finds in the text given to [new URL], then those appended to
    [searchParams]. *)
Definition request_query (u : Url) : option (list (string * string)) :=
  option_map (fun parsed => (parsed ++ url_searchParams u)%list)
    (parse_query (href_query (url_href u))).

(* Sample worlds for the closed examples. *)

Definition sample_env (name : string) : option string :=
  if (name =? "COINGEKO_API_KEY")%string then Some "CG-demo" else None.

Definition paid_env (name : string) : option string :=
  if (name =? "FACILITATOR_URL")%string then Some "https://x402.org/facilitator"
  else if (name =? "ADDRESS")%string then Some "0xPayout"
  else None.

Definition sample_prices : Js :=
  JObj [("bitcoin", JObj [("usd", JNum 50000)]);
        ("ethereum", JObj [("usd", JNum 3000)])].

Definition net_ok : Network :=
  fun _ _ => Responded (mkResponse 200 "OK" (inr sample_prices)).

Definition net_404 : Network :=
  fun _ _ => Responded (mkResponse 404 "Not Found" (inr (JObj []))).

Definition net_down : Network :=
  fun _ _ => Rejected (ErrorObj "TypeError" "fetch failed" "TypeError: fetch failed at node:internal").

Definition sample_stack : string := "Error at callCoinGeckoAPI (server.ts)".

Definition sample_clock : string := "2025-01-01T00:00:00.000Z".

(** GET /simple/price?vs_currencies=usd *)
Definition request_without_ids : HttpRequest :=
  mkHttpRequest [("vs_currencies", JStr "usd")] [].

(** GET /simple/price?ids=bitcoin,ethereum&vs_currencies=usd *)
Definition request_prices : HttpRequest :=
  mkHttpRequest [("ids", JStr "bitcoin,ethereum");
                 ("vs_currencies", JStr "usd")] [].


(** A 200 answer whose body is not JSON. *)
Definition net_bad_json : Network :=
  fun _ _ =>
    Responded (mkResponse 200 "OK"
                 (inl (ErrorObj "SyntaxError" "Unexpected token < in JSON"
                         "SyntaxError: Unexpected token < in JSON at parse"))).

(** An upstream whose trending payload lists three coins. *)
Definition net_three_coins : Network :=
  fun _ rq =>
    if (url_href (req_url rq)
        =? "https://api.coingecko.com/api/v3/search/trending")%string
    then Responded (mkResponse 200 "OK"
                      (inr (JObj [("coins",
                                   JArr [JStr "a"; JStr "b"; JStr "c"])])))
    else Responded (mkResponse 200 "OK" (inr sample_prices)).

(** An upstream that fails the first call and would answer a second. *)
Definition net_first_fails : Network :=
  fun log _ =>
    match log with
    | [] => Responded (mkResponse 503 "Service Unavailable" (inr JNull))
    | _ :: _ => Responded (mkResponse 200 "OK" (inr sample_prices))
    end.

Definition sample_config : PaymentConfig :=
  let rule := mkPaymentRule "$0.001" "base-sepolia" in
  mkPaymentConfig rule rule rule rule rule.

(* ================================================================== *)
(** ** Closed forms of the handlers *)

Lemma absent_falsy (v : Js) : absent v -> truthy v = false.
Proof.
  intros [-> | [-> | ->]]; reflexivity.
Qed.

Lemma callCoinGeckoAPI_run (endpoint : string) (ps : option Obj)
  (log : list Request) :
  callCoinGeckoAPI endpoint ps log =
    (settle (net log (build_request endpoint ps)),
     (log ++ [build_request endpoint ps])%list).
Proof.
  unfold callCoinGeckoAPI, bind, fetch, settle.
  destruct (net log (build_request endpoint ps)) as [e | r]; [reflexivity |].
  destruct (resp_ok r); simpl; [| reflexivity].
  unfold response_json; destruct (resp_json r); reflexivity.
Qed.

(** The shape every operation shares: one upstream call inside [try], the
    result or the caught error turned into the handler's value. *)
Lemma guarded_call_run {A : Type} (endpoint : string) (ps : option Obj)
  (ok : Js -> A) (ko : Thrown -> A) (log : list Request) :
  try_catch (data <- callCoinGeckoAPI endpoint ps ;; ret (ok data))
            (fun error => ret (ko error)) log =
    (Normal match settle (net log (build_request endpoint ps)) with
            | Normal data => ok data
            | Throw e => ko e
            end,
     (log ++ [build_request endpoint ps])%list).
Proof.
  unfold try_catch, bind; rewrite callCoinGeckoAPI_run.
  destruct (settle _); reflexivity.
Qed.

Lemma route_simple_price_run (req : HttpRequest) (log : list Request) :
  route_simple_price req log =
    if negb (truthy (obj_get (query req) "ids"))
       || negb (truthy (obj_get (query req) "vs_currencies"))
    then (Normal (mkHttpResponse 400
                    (JObj [("error", JStr "Missing required parameters");
                           ("required", JArr [JStr "ids"; JStr "vs_currencies"]);
                           ("message",
                            JStr "Both 'ids' and 'vs_currencies' are required parameters")])),
          log)
    else
      let p := http_price_params (query req) in
      let rq := build_request "/simple/price" (Some p) in
      (Normal match settle (net log rq) with
              | Normal data => res_json (success_with_parameters data (JObj p))
              | Throw e =>
                  mkHttpResponse 500
                    (failure_envelope "Failed to fetch price data" e)
              end,
       (log ++ [rq])%list).
Proof.
  unfold route_simple_price; cbv zeta.
  destruct (negb (truthy (obj_get (query req) "ids"))
            || negb (truthy (obj_get (query req) "vs_currencies"))) eqn:E.
  - reflexivity.
  - rewrite <- (guarded_call_run "/simple/price"
                  (Some (http_price_params (query req)))
                  (fun data => res_json (success_with_parameters data
                                 (JObj (http_price_params (query req)))))
                  (fun e => mkHttpResponse 500
                              (failure_envelope "Failed to fetch price data" e))).
    reflexivity.
Qed.

Lemma route_search_trending_run (req : HttpRequest) (log : list Request) :
  route_search_trending req log =
    let rq := build_request "/search/trending" None in
    (Normal match settle (net log rq) with
            | Normal data =>
                res_json (success_with_message data
                            "Trending coins fetched successfully")
            | Throw e =>
                mkHttpResponse 500
                  (failure_envelope "Failed to fetch trending coins" e)
            end,
     (log ++ [rq])%list).
Proof.
  unfold route_search_trending; rewrite guarded_call_run; reflexivity.
Qed.

Lemma route_coins_list_new_run (req : HttpRequest) (log : list Request) :
  route_coins_list_new req log =
    let rq := build_request "/coins/list/new" None in
    (Normal match settle (net log rq) with
            | Normal data =>
                res_json (success_with_message data
                            "Newly listed coins fetched successfully")
            | Throw e =>
                mkHttpResponse 500
                  (failure_envelope "Failed to fetch new coins" e)
            end,
     (log ++ [rq])%list).
Proof.
  unfold route_coins_list_new; rewrite guarded_call_run; reflexivity.
Qed.

Lemma route_token_by_address_run (req : HttpRequest) (log : list Request) :
  route_token_by_address req log =
    let chainId := obj_get (params req) "chainId" in
    let tokenAddress := obj_get (params req) "tokenAddress" in
    if negb (truthy chainId) || negb (truthy tokenAddress)
    then (Normal (mkHttpResponse 400
                    (JObj [("error", JStr "Missing required path parameters");
                           ("required",
                            JArr [JStr "chainId"; JStr "tokenAddress"]);
                           ("message",
                            JStr "Both 'chainId' and 'tokenAddress' are required in the URL path")])),
          log)
    else
      let p := token_params (obj_get (query req)) in
      let rq := build_request (token_endpoint chainId tokenAddress)
                  (params_or_undefined p) in
      (Normal match settle (net log rq) with
              | Normal data =>
                  res_json
                    (success_with_parameters data
                       (JObj (obj_spread [("chainId", chainId);
                                          ("tokenAddress", tokenAddress)] p)))
              | Throw e =>
                  mkHttpResponse 500
                    (failure_envelope "Failed to fetch token data" e)
              end,
       (log ++ [rq])%list).
Proof.
  unfold route_token_by_address; cbv zeta.
  destruct (negb (truthy (obj_get (params req) "chainId"))
            || negb (truthy (obj_get (params req) "tokenAddress"))) eqn:E.
  - reflexivity.
  - rewrite guarded_call_run; reflexivity.
Qed.

Lemma member_run (v : Js) (k : string) :
  nullish v = false -> member v k = ret (opt_get v k).
Proof.
  destruct v; simpl; intros H; try discriminate; reflexivity.
Qed.

Lemma handleGetSimplePrice_run (args : Js) (log : list Request) :
  nullish args = false ->
  handleGetSimplePrice args log =
    let p := tool_price_params args in
    let rq := build_request "/simple/price" (Some p) in
    (Normal (text_result
               (JSON_stringify
                  match settle (net log rq) with
                  | Normal data => success_with_parameters data (JObj p)
                  | Throw e => failure_envelope "Failed to fetch price data" e
                  end)),
     (log ++ [rq])%list).
Proof.
  intros H; unfold handleGetSimplePrice.
  rewrite !(member_run _ _ H).
  unfold try_catch, bind, ret at 1 2 3 4 5 6 7; cbv zeta.
  fold (tool_price_params args).
  rewrite callCoinGeckoAPI_run.
  destruct (settle _); reflexivity.
Qed.

Lemma handleGetSimplePrice_nullish (args : Js) (log : list Request) :
  nullish args = true ->
  exists e,
    handleGetSimplePrice args log =
      (Normal (text_result
                 (JSON_stringify
                    (failure_envelope "Failed to fetch price data" e))),
       log).
Proof.
  destruct args; simpl; intros H; try discriminate;
    eexists; reflexivity.
Qed.

Lemma handleGetTrendingCoins_run (args : Js) (log : list Request) :
  handleGetTrendingCoins args log =
    let rq := build_request "/search/trending" None in
    (Normal (text_result
               (JSON_stringify
                  match settle (net log rq) with
                  | Normal data =>
                      success_with_message data
                        "Trending coins fetched successfully"
                  | Throw e =>
                      failure_envelope "Failed to fetch trending coins" e
                  end)),
     (log ++ [rq])%list).
Proof.
  unfold handleGetTrendingCoins; rewrite guarded_call_run.
  cbv zeta; destruct (settle _); reflexivity.
Qed.

Lemma handleGetNewCoins_run (args : Js) (log : list Request) :
  handleGetNewCoins args log =
    let rq := build_request "/coins/list/new" None in
    (Normal (text_result
               (JSON_stringify
                  match settle (net log rq) with
                  | Normal data =>
                      success_with_message data
                        "Newly listed coins fetched successfully"
                  | Throw e => failure_envelope "Failed to fetch new coins" e
                  end)),
     (log ++ [rq])%list).
Proof.
  unfold handleGetNewCoins; rewrite guarded_call_run.
  cbv zeta; destruct (settle _); reflexivity.
Qed.

Lemma handleGetTokenPriceByAddress_run (args : Js) (log : list Request) :
  nullish args = false ->
  handleGetTokenPriceByAddress args log =
    let chainId := opt_get args "chainId" in
    let tokenAddress := opt_get args "tokenAddress" in
    let p := token_params (opt_get args) in
    let rq := build_request (token_endpoint chainId tokenAddress)
                (params_or_undefined p) in
    (Normal (text_result
               (JSON_stringify
                  match settle (net log rq) with
                  | Normal data =>
                      success_with_parameters data
                        (JObj (obj_spread [("chainId", chainId);
                                           ("tokenAddress", tokenAddress)] p))
                  | Throw e => failure_envelope "Failed to fetch token data" e
                  end)),
     (log ++ [rq])%list).
Proof.
  intros H; unfold handleGetTokenPriceByAddress.
  assert (D : destructure args "chainId" = ret tt)
    by (destruct args; simpl in H; try discriminate; reflexivity).
  rewrite D; unfold try_catch, bind, ret at 1; cbv zeta.
  rewrite callCoinGeckoAPI_run.
  destruct (settle _); reflexivity.
Qed.

Lemma handleGetTokenPriceByAddress_nullish (args : Js) (log : list Request) :
  nullish args = true ->
  exists e,
    handleGetTokenPriceByAddress args log =
      (Normal (text_result
                 (JSON_stringify
                    (failure_envelope "Failed to fetch token data" e))),
       log).
Proof.
  destruct args; simpl; intros H; try discriminate;
    eexists; reflexivity.
Qed.

Lemma length_app_one {A : Type} (l : list A) (x : A) :
  (List.length (l ++ [x]) - List.length l = 1)%nat.
Proof.
  rewrite length_app; simpl; lia.
Qed.

Lemma settle_rejected (e : Thrown) : settle (Rejected e) = Throw e.
Proof. reflexivity. Qed.

Lemma settle_ok (r : Response) (v : Js) :
  resp_ok r = true -> resp_json r = inr v -> settle (Responded r) = Normal v.
Proof.
  intros Hok Hj; unfold settle; rewrite Hok, Hj; reflexivity.
Qed.

Lemma settle_not_ok (r : Response) :
  resp_ok r = false ->
  settle (Responded r) = Throw (new_Error (upstream_error_message r)).
Proof.
  intros Hok; unfold settle; rewrite Hok; reflexivity.
Qed.

Lemma resp_ok_2xx (r : Response) :
  resp_ok r = true <-> 200 <= resp_status r <= 299.
Proof.
  unfold resp_ok; rewrite andb_true_iff, !Z.leb_le; tauto.
Qed.

Lemma keep_entry_absent (k : string) (v : Js) :
  absent v -> keep_entry (k, v) = false.
Proof.
  intros [-> | [-> | ->]]; reflexivity.
Qed.

Lemma keep_entry_present (k : string) (v : Js) :
  ~ absent v -> keep_entry (k, v) = true.
Proof.
  unfold absent, keep_entry; intros H.
  destruct v as [ | | b | n | s | l | o]; simpl; try reflexivity.
  - exfalso; apply H; left; reflexivity.
  - exfalso; apply H; right; left; reflexivity.
  - destruct s; [exfalso; apply H; right; right; reflexivity | reflexivity].
Qed.

Lemma js_String_number_nonempty (n : Z) :
  js_String (JNum n) <> EmptyString.
Proof.
  destruct n as [| p | p]; simpl; [discriminate | | discriminate].
  pose proof (Unsigned.to_uint_nonnil p) as H.
  destruct (Pos.to_uint p); [contradiction | ..]; discriminate.
Qed.

Lemma tool_price_params_optional (args : Js) (k : string) :
  In k price_optional_names ->
  is_undefined (opt_get args k) = false ->
  In (k, JStr (js_String (opt_get args k))) (tool_price_params args).
Proof.
  intros Hk Hd; unfold tool_price_params, set_String_if_defined.
  simpl in Hk.
  destruct Hk as [<- | [<- | [<- | [<- | [<- | []]]]]]; rewrite Hd;
    repeat match goal with
           | |- context [is_undefined ?x] => destruct (is_undefined x)
           end;
    cbn; auto 10.
Qed.

(* ================================================================== *)
(** ** The claims *)

(** C4. The upstream client ([callCoinGeckoAPI]) issues one request whose
    URL carries, in the order of the query map, exactly the entries whose
    value is not [undefined], [null] or the empty string: an absent entry
    is skipped, any other entry is appended under its key with its value
    stringified, so a boolean arrives as ["true"] / ["false"] and a number
    as the decimal text that reads back as that number.  Without a query
    map no entry is appended.  The statement is about query maps whose
    values can be stringified (the map is typed as text); numbers are the
    safe integers. *)
Theorem C4_query_entries_filtered (endpoint : string) (log : list Request) :
  let sent ps := url_searchParams (build_url endpoint ps) in
  (forall ps,
      stringable_map ps ->
      snd (callCoinGeckoAPI endpoint ps log)
      = (log ++ [mkRequest (mkUrl (COINGECKO_BASE_URL ++ endpoint) (sent ps))
                           request_headers])%list)
  /\ sent None = []
  /\ sent (Some []) = []
  /\ (forall k v rest,
         absent v -> sent (Some ((k, v) :: rest)) = sent (Some rest))
  /\ (forall k v rest,
         ~ absent v -> stringable v = true ->
         sent (Some ((k, v) :: rest)) = (k, js_String v) :: sent (Some rest))
  /\ (forall k b rest,
         sent (Some ((k, JBool b) :: rest))
         = (k, if b then "true" else "false") :: sent (Some rest))
  /\ (forall k n rest,
         Z.abs n <= MAX_SAFE_INTEGER ->
         exists text,
           sent (Some ((k, JNum n) :: rest)) = (k, text) :: sent (Some rest)
           /\ option_map Z.of_int (NilZero.int_of_string text) = Some n)
  /\ (forall entries k s,
         stringable_map (Some entries) ->
         (In (k, s) (sent (Some entries))
          <-> exists v, In (k, v) entries /\ ~ absent v /\ s = js_String v))
  /\ (forall args k,
         nullish args = false ->
         stringable_inputs (opt_get args) price_input_names ->
         In k price_optional_names ->
         (exists b, opt_get args k = JBool b)
         \/ (exists n, opt_get args k = JNum n) ->
         exists rq,
           snd (handleGetSimplePrice args log) = (log ++ [rq])%list
           /\ In (k, js_String (opt_get args k))
                (url_searchParams (req_url rq))).
Proof.
  cbv zeta.
  assert (Hskip : forall k v rest, absent v ->
            url_searchParams (build_url endpoint (Some ((k, v) :: rest)))
            = url_searchParams (build_url endpoint (Some rest))).
  { intros k v rest Hv; simpl.
    rewrite (keep_entry_absent k v Hv); reflexivity. }
  assert (Hkeep : forall k v rest, ~ absent v ->
            url_searchParams (build_url endpoint (Some ((k, v) :: rest)))
            = (k, js_String v)
                :: url_searchParams (build_url endpoint (Some rest))).
  { intros k v rest Hv; simpl.
    rewrite (keep_entry_present k v Hv); reflexivity. }
  assert (Hiff : forall endpoint' entries k s,
            In (k, s) (url_searchParams (build_url endpoint' (Some entries)))
            <-> exists v, In (k, v) entries /\ ~ absent v /\ s = js_String v).
  { intros endpoint' entries k s; simpl; split.
    - induction entries as [| [k' v'] rest IH]; [intros [] |].
      simpl; destruct (keep_entry (k', v')) eqn:E.
      + intros [Heq | Hin].
        * inversion Heq; subst.
          exists v'; repeat split; [left; reflexivity |].
          intros Habs; rewrite (keep_entry_absent k v' Habs) in E;
            discriminate.
        * destruct (IH Hin) as [v [Hv1 [Hv2 Hv3]]].
          exists v; repeat split; [right | |]; assumption.
      + intros Hin; destruct (IH Hin) as [v [Hv1 [Hv2 Hv3]]].
        exists v; repeat split; [right | |]; assumption.
    - intros [v [Hin [Hv ->]]]; revert Hin.
      induction entries as [| [k' v'] rest IH]; [intros [] |].
      intros [Heq | Hin].
      + inversion Heq; subst; simpl.
        rewrite (keep_entry_present _ _ Hv); left; reflexivity.
      + specialize (IH Hin); simpl in *.
        destruct (keep_entry (k', v')); [right |]; exact IH. }
  refine (conj _ (conj eq_refl (conj eq_refl (conj Hskip
            (conj (fun k v rest Hv _ => Hkeep k v rest Hv)
               (conj _ (conj _ (conj (fun entries k s _ =>
                                        Hiff endpoint entries k s) _)))))))).
  - intros ps _; rewrite callCoinGeckoAPI_run; reflexivity.
  - intros k b rest; destruct b; reflexivity.
  - intros k n rest _.
    exists (NilZero.string_of_int (Z.to_int n)); split; [reflexivity |].
    rewrite NilZero.isi.
    + simpl; rewrite DecimalZ.of_to; reflexivity.
    + destruct n as [| p | p]; simpl; try discriminate.
      intros E; inversion E as [E'].
      exact (Unsigned.to_uint_nonnil p E').
    + destruct n as [| p | p]; simpl; try discriminate.
      intros E; inversion E as [E'].
      exact (Unsigned.to_uint_nonnil p E').
  - intros args k N _ Hk Hv.
    rewrite (handleGetSimplePrice_run args log N); cbv zeta.
    eexists; split; [reflexivity |].
    cbn [req_url build_request].
    apply Hiff; exists (JStr (js_String (opt_get args k))).
    split; [| split; [| reflexivity]].
    + apply tool_price_params_optional; [exact Hk |].
      destruct Hv as [[b ->] | [n ->]]; reflexivity.
    + destruct Hv as [[b ->] | [n ->]].
      * destruct b; intros [H | [H | H]]; discriminate.
      * intros [H | [H | H]]; try discriminate.
        inversion H as [H']; exact (js_String_number_nonempty n H').
Qed.

Lemma fetches_none {A : Type} (m : M A) (log : list Request) :
  snd (m log) = log -> fetches m log = 0%nat.
Proof.
  unfold fetches; intros ->; lia.
Qed.

Lemma fetches_one {A : Type} (m : M A) (log : list Request) (rq : Request) :
  snd (m log) = (log ++ [rq])%list -> fetches m log = 1%nat.
Proof.
  unfold fetches; intros ->; apply length_app_one.
Qed.

Lemma settle_404 (r : Response) :
  resp_status r = 404 ->
  settle (Responded r)
  = Throw (new_Error ("CoinGecko API error: 404 " ++ resp_statusText r)).
Proof.
  intros H; unfold settle, resp_ok, upstream_error_message.
  rewrite H; reflexivity.
Qed.

Lemma routes_fetch_at_most_once (req : HttpRequest) (log : list Request) :
  (fetches (route_simple_price req) log <= 1)%nat
  /\ (fetches (route_search_trending req) log <= 1)%nat
  /\ (fetches (route_coins_list_new req) log <= 1)%nat
  /\ (fetches (route_token_by_address req) log <= 1)%nat.
Proof.
  unfold fetches.
  rewrite route_simple_price_run, route_search_trending_run,
    route_coins_list_new_run, route_token_by_address_run; cbv zeta.
  destruct (negb (truthy (obj_get (query req) "ids")) || _);
    destruct (negb (truthy (obj_get (params req) "chainId")) || _);
    simpl snd; rewrite ?length_app; simpl; lia.
Qed.

Lemma tools_fetch_at_most_once (args : Js) (log : list Request) :
  (fetches (handleGetSimplePrice args) log <= 1)%nat
  /\ (fetches (handleGetTrendingCoins args) log <= 1)%nat
  /\ (fetches (handleGetNewCoins args) log <= 1)%nat
  /\ (fetches (handleGetTokenPriceByAddress args) log <= 1)%nat.
Proof.
  unfold fetches.
  rewrite handleGetTrendingCoins_run, handleGetNewCoins_run; cbv zeta.
  destruct (nullish args) eqn:N.
  - destruct (handleGetSimplePrice_nullish args log N) as [e1 ->].
    destruct (handleGetTokenPriceByAddress_nullish args log N) as [e2 ->].
    simpl snd; rewrite ?length_app; simpl; lia.
  - rewrite (handleGetSimplePrice_run args log N),
      (handleGetTokenPriceByAddress_run args log N); cbv zeta.
    simpl snd; rewrite ?length_app; simpl; lia.
Qed.

(** C5. One call of the upstream client performs exactly one [fetch].  On
    a 2xx response it returns the parsed JSON body; on any other status it
    fails with an error whose message carries the numeric status and the
    status text; a transport failure propagates as it is.  No operation, on
    the HTTP or on the tool surface, fetches more than once, and when the
    network answers 404 each operation that reaches upstream fetches once
    and yields the failure envelope whose message names status 404.  The
    counts of exactly one are stated for query maps and inputs that can be
    stringified: a conversion that throws ends the call before the
    fetch. *)
Theorem C5_status_and_single_fetch
  (endpoint : string) (ps : option Obj) (log : list Request) :
  let rq := build_request endpoint ps in
  let call := callCoinGeckoAPI endpoint ps in
  (stringable_map ps -> fetches call log = 1%nat)
  /\ (stringable_map ps -> snd (call log) = (log ++ [rq])%list)
  /\ (forall r v,
         stringable_map ps ->
         net log rq = Responded r -> 200 <= resp_status r <= 299 ->
         resp_json r = inr v -> outcome call log = Normal v)
  /\ (forall r,
         stringable_map ps ->
         net log rq = Responded r -> ~ 200 <= resp_status r <= 299 ->
         outcome call log
         = Throw (ErrorObj "Error"
                    ("CoinGecko API error: " ++ js_String (JNum (resp_status r))
                       ++ " " ++ resp_statusText r)
                    stack_trace))
  /\ (forall e,
         stringable_map ps ->
         net log rq = Rejected e -> outcome call log = Throw e)
  /\ (forall req,
         (fetches (route_simple_price req) log <= 1)%nat
         /\ (fetches (route_search_trending req) log <= 1)%nat
         /\ (fetches (route_coins_list_new req) log <= 1)%nat
         /\ (fetches (route_token_by_address req) log <= 1)%nat)
  /\ (forall args,
         (fetches (handleGetSimplePrice args) log <= 1)%nat
         /\ (fetches (handleGetTrendingCoins args) log <= 1)%nat
         /\ (fetches (handleGetNewCoins args) log <= 1)%nat
         /\ (fetches (handleGetTokenPriceByAddress args) log <= 1)%nat)
  /\ (forall r,
         (forall rq', net log rq' = Responded r) -> resp_status r = 404 ->
         let e404 :=
           new_Error ("CoinGecko API error: 404 " ++ resp_statusText r) in
         (forall req,
             truthy (obj_get (query req) "ids") = true ->
             truthy (obj_get (query req) "vs_currencies") = true ->
             stringable_inputs (obj_get (query req)) price_input_names ->
             fetches (route_simple_price req) log = 1%nat
             /\ outcome (route_simple_price req) log
                = Normal (mkHttpResponse 500
                            (failure_envelope "Failed to fetch price data"
                               e404)))
         /\ (forall req,
                fetches (route_search_trending req) log = 1%nat
                /\ outcome (route_search_trending req) log
                   = Normal (mkHttpResponse 500
                               (failure_envelope
                                  "Failed to fetch trending coins" e404)))
         /\ (forall req,
                fetches (route_coins_list_new req) log = 1%nat
                /\ outcome (route_coins_list_new req) log
                   = Normal (mkHttpResponse 500
                               (failure_envelope "Failed to fetch new coins"
                                  e404)))
         /\ (forall req,
                truthy (obj_get (params req) "chainId") = true ->
                truthy (obj_get (params req) "tokenAddress") = true ->
                stringable_inputs (obj_get (params req))
                  ["chainId"; "tokenAddress"] ->
                stringable_inputs (obj_get (query req))
                  token_optional_names ->
                fetches (route_token_by_address req) log = 1%nat
                /\ outcome (route_token_by_address req) log
                   = Normal (mkHttpResponse 500
                               (failure_envelope "Failed to fetch token data"
                                  e404)))
         /\ (forall args,
                nullish args = false ->
                stringable_inputs (opt_get args) price_input_names ->
                fetches (handleGetSimplePrice args) log = 1%nat
                /\ outcome (handleGetSimplePrice args) log
                   = Normal (text_result
                               (JSON_stringify
                                  (failure_envelope
                                     "Failed to fetch price data" e404))))
         /\ (forall args,
                fetches (handleGetTrendingCoins args) log = 1%nat
                /\ outcome (handleGetTrendingCoins args) log
                   = Normal (text_result
                               (JSON_stringify
                                  (failure_envelope
                                     "Failed to fetch trending coins" e404))))
         /\ (forall args,
                fetches (handleGetNewCoins args) log = 1%nat
                /\ outcome (handleGetNewCoins args) log
                   = Normal (text_result
                               (JSON_stringify
                                  (failure_envelope
                                     "Failed to fetch new coins" e404))))
         /\ (forall args,
                nullish args = false ->
                stringable_inputs (opt_get args)
                  ("chainId" :: "tokenAddress" :: token_optional_names) ->
                fetches (handleGetTokenPriceByAddress args) log = 1%nat
                /\ outcome (handleGetTokenPriceByAddress args) log
                   = Normal (text_result
                               (JSON_stringify
                                  (failure_envelope
                                     "Failed to fetch token data" e404))))).
Proof.
  cbv zeta; unfold outcome.
  split; [intros _; apply (fetches_one _ _ (build_request endpoint ps));
          rewrite callCoinGeckoAPI_run; reflexivity |].
  split; [intros _; rewrite callCoinGeckoAPI_run; reflexivity |].
  split.
  { intros r v _ Hn Hs Hj; rewrite callCoinGeckoAPI_run, Hn; cbn [fst].
    apply settle_ok; [apply resp_ok_2xx |]; assumption. }
  split.
  { intros r _ Hn Hs; rewrite callCoinGeckoAPI_run, Hn; cbn [fst].
    rewrite settle_not_ok; [reflexivity |].
    destruct (resp_ok r) eqn:E; [| reflexivity].
    exfalso; apply Hs, resp_ok_2xx, E. }
  split; [intros e _ Hn; rewrite callCoinGeckoAPI_run, Hn; reflexivity |].
  split; [intros req; apply routes_fetch_at_most_once |].
  split; [intros args; apply tools_fetch_at_most_once |].
  intros r Hall H404.
  pose proof (settle_404 r H404) as S404.
  unfold fetches.
  repeat match goal with |- _ /\ _ => split end.
  - intros req Hi Hv _.
    pose proof (route_simple_price_run req log) as R.
    rewrite Hi, Hv in R; cbv zeta in R; simpl orb in R; cbv iota in R.
    rewrite Hall, S404 in R; rewrite R; split;
      [simpl snd; apply length_app_one | reflexivity].
  - intros req; rewrite route_search_trending_run; cbv zeta.
    rewrite Hall, S404; split;
      [simpl snd; apply length_app_one | reflexivity].
  - intros req; rewrite route_coins_list_new_run; cbv zeta.
    rewrite Hall, S404; split;
      [simpl snd; apply length_app_one | reflexivity].
  - intros req Hc Ht _ _.
    pose proof (route_token_by_address_run req log) as R.
    cbv zeta in R; rewrite Hc, Ht in R; simpl orb in R; cbv iota in R.
    rewrite Hall, S404 in R; rewrite R; split;
      [simpl snd; apply length_app_one | reflexivity].
  - intros args N _.
    pose proof (handleGetSimplePrice_run args log N) as R; cbv zeta in R.
    rewrite Hall, S404 in R; rewrite R; split;
      [simpl snd; apply length_app_one | reflexivity].
  - intros args; rewrite handleGetTrendingCoins_run; cbv zeta.
    rewrite Hall, S404; split;
      [simpl snd; apply length_app_one | reflexivity].
  - intros args; rewrite handleGetNewCoins_run; cbv zeta.
    rewrite Hall, S404; split;
      [simpl snd; apply length_app_one | reflexivity].
  - intros args N _.
    pose proof (handleGetTokenPriceByAddress_run args log N) as R;
      cbv zeta in R.
    rewrite Hall, S404 in R; rewrite R; split;
      [simpl snd; apply length_app_one | reflexivity].
Qed.

Lemma http_replies_intro (route : M HttpResponse) (endpoint : string)
  (ps : option Obj) (category : string) (success : Js -> Js)
  (log : list Request) :
  outcome route log
  = Normal match settle (net log (build_request endpoint ps)) with
           | Normal data => res_json (success data)
           | Throw e => mkHttpResponse 500 (failure_envelope category e)
           end ->
  http_replies route (callCoinGeckoAPI endpoint ps) category success log.
Proof.
  unfold http_replies, outcome; intros ->.
  rewrite callCoinGeckoAPI_run; cbn [fst].
  split; intros x ->; reflexivity.
Qed.

Lemma tool_replies_intro (handler : M ToolResult) (endpoint : string)
  (ps : option Obj) (category : string) (success : Js -> Js)
  (log : list Request) :
  outcome handler log
  = Normal (text_result
              (JSON_stringify
                 match settle (net log (build_request endpoint ps)) with
                 | Normal data => success data
                 | Throw e => failure_envelope category e
                 end)) ->
  tool_replies handler (callCoinGeckoAPI endpoint ps) category success log.
Proof.
  unfold tool_replies, outcome; intros ->.
  rewrite callCoinGeckoAPI_run; cbn [fst].
  split; intros x ->; reflexivity.
Qed.

Lemma route_simple_price_missing (req : HttpRequest) (log : list Request) :
  absent (obj_get (query req) "ids")
  \/ absent (obj_get (query req) "vs_currencies") ->
  route_simple_price req log
  = (Normal (mkHttpResponse 400 missing_price_parameters), log).
Proof.
  intros H; rewrite route_simple_price_run.
  destruct H as [H | H]; rewrite (absent_falsy _ H);
    [| rewrite orb_true_r]; reflexivity.
Qed.

Lemma route_token_by_address_missing (req : HttpRequest)
  (log : list Request) :
  absent (obj_get (params req) "chainId")
  \/ absent (obj_get (params req) "tokenAddress") ->
  route_token_by_address req log
  = (Normal (mkHttpResponse 400 missing_path_parameters), log).
Proof.
  intros H; rewrite route_token_by_address_run; cbv zeta.
  destruct H as [H | H]; rewrite (absent_falsy _ H);
    [| rewrite orb_true_r]; reflexivity.
Qed.

Lemma route_simple_price_replies (req : HttpRequest) (log : list Request) :
  truthy (obj_get (query req) "ids") = true ->
  truthy (obj_get (query req) "vs_currencies") = true ->
  http_replies (route_simple_price req)
    (callCoinGeckoAPI "/simple/price" (Some (http_price_params (query req))))
    "Failed to fetch price data"
    (fun data =>
       success_with_parameters data (JObj (http_price_params (query req))))
    log.
Proof.
  intros Hi Hv; apply http_replies_intro.
  unfold outcome; rewrite route_simple_price_run, Hi, Hv; reflexivity.
Qed.

Lemma route_token_by_address_replies (req : HttpRequest)
  (log : list Request) :
  truthy (obj_get (params req) "chainId") = true ->
  truthy (obj_get (params req) "tokenAddress") = true ->
  http_replies (route_token_by_address req)
    (callCoinGeckoAPI
       (token_endpoint (obj_get (params req) "chainId")
          (obj_get (params req) "tokenAddress"))
       (params_or_undefined (token_params (obj_get (query req)))))
    "Failed to fetch token data"
    (fun data =>
       success_with_parameters data
         (JObj (obj_spread
                  [("chainId", obj_get (params req) "chainId");
                   ("tokenAddress", obj_get (params req) "tokenAddress")]
                  (token_params (obj_get (query req))))))
    log.
Proof.
  intros Hc Ht; apply http_replies_intro.
  unfold outcome; rewrite route_token_by_address_run; cbv zeta.
  rewrite Hc, Ht; reflexivity.
Qed.

Lemma route_search_trending_replies (req : HttpRequest)
  (log : list Request) :
  http_replies (route_search_trending req)
    (callCoinGeckoAPI "/search/trending" None)
    "Failed to fetch trending coins"
    (fun data =>
       success_with_message data "Trending coins fetched successfully")
    log.
Proof.
  apply http_replies_intro.
  unfold outcome; rewrite route_search_trending_run; reflexivity.
Qed.

Lemma route_coins_list_new_replies (req : HttpRequest) (log : list Request) :
  http_replies (route_coins_list_new req)
    (callCoinGeckoAPI "/coins/list/new" None)
    "Failed to fetch new coins"
    (fun data =>
       success_with_message data "Newly listed coins fetched successfully")
    log.
Proof.
  apply http_replies_intro.
  unfold outcome; rewrite route_coins_list_new_run; reflexivity.
Qed.

(** C6. On the HTTP surface a request whose required input is missing is
    answered 400 with a structured body naming the required fields (for
    GET /simple/price the body's [required] is exactly [ids],
    [vs_currencies]); when the upstream call returns, the answer is 200 with
    the result envelope as body; when it throws (upstream status or
    transport), the answer is 500 with a body of exactly [error] and
    [message], the message being the error's message text and never its
    stack.  No route throws: every request is answered 200, 400 or 500. *)
Theorem C6_http_status_mapping (req : HttpRequest) (log : list Request) :
  let ids := obj_get (query req) "ids" in
  let vs_currencies := obj_get (query req) "vs_currencies" in
  let chainId := obj_get (params req) "chainId" in
  let tokenAddress := obj_get (params req) "tokenAddress" in
  (absent ids \/ absent vs_currencies ->
   outcome (route_simple_price req) log
   = Normal (mkHttpResponse 400
               (JObj [("error", JStr "Missing required parameters");
                      ("required", JArr [JStr "ids"; JStr "vs_currencies"]);
                      ("message",
                       JStr "Both 'ids' and 'vs_currencies' are required parameters")])))
  /\ (absent chainId \/ absent tokenAddress ->
      outcome (route_token_by_address req) log
      = Normal (mkHttpResponse 400
                  (JObj [("error", JStr "Missing required path parameters");
                         ("required",
                          JArr [JStr "chainId"; JStr "tokenAddress"]);
                         ("message",
                          JStr "Both 'chainId' and 'tokenAddress' are required in the URL path")])))
  /\ (truthy ids = true -> truthy vs_currencies = true ->
      http_replies (route_simple_price req)
        (callCoinGeckoAPI "/simple/price"
           (Some (http_price_params (query req))))
        "Failed to fetch price data"
        (fun data =>
           JObj [("success", JBool true); ("data", data);
                 ("parameters", JObj (http_price_params (query req)))])
        log)
  /\ http_replies (route_search_trending req)
       (callCoinGeckoAPI "/search/trending" None)
       "Failed to fetch trending coins"
       (fun data =>
          JObj [("success", JBool true); ("data", data);
                ("message", JStr "Trending coins fetched successfully")])
       log
  /\ http_replies (route_coins_list_new req)
       (callCoinGeckoAPI "/coins/list/new" None)
       "Failed to fetch new coins"
       (fun data =>
          JObj [("success", JBool true); ("data", data);
                ("message", JStr "Newly listed coins fetched successfully")])
       log
  /\ (truthy chainId = true -> truthy tokenAddress = true ->
      http_replies (route_token_by_address req)
        (callCoinGeckoAPI (token_endpoint chainId tokenAddress)
           (params_or_undefined (token_params (obj_get (query req)))))
        "Failed to fetch token data"
        (fun data =>
           JObj [("success", JBool true); ("data", data);
                 ("parameters",
                  JObj (obj_spread [("chainId", chainId);
                                    ("tokenAddress", tokenAddress)]
                          (token_params (obj_get (query req)))))])
        log)
  /\ (forall category name message stack,
         failure_envelope category (ErrorObj name message stack)
         = JObj [("error", JStr category); ("message", JStr message)])
  /\ (forall route,
         In route [route_simple_price; route_search_trending;
                   route_coins_list_new; route_token_by_address] ->
         exists resp,
           outcome (route req) log = Normal resp
           /\ (http_status resp = 200 \/ http_status resp = 400
               \/ http_status resp = 500)).
Proof.
  cbv zeta.
  split; [intros H; unfold outcome;
          rewrite (route_simple_price_missing req log H); reflexivity |].
  split; [intros H; unfold outcome;
          rewrite (route_token_by_address_missing req log H); reflexivity |].
  split; [apply route_simple_price_replies |].
  split; [apply route_search_trending_replies |].
  split; [apply route_coins_list_new_replies |].
  split; [apply route_token_by_address_replies |].
  split; [reflexivity |].
  intros route [<- | [<- | [<- | [<- | []]]]]; unfold outcome.
  - rewrite route_simple_price_run.
    destruct (negb _ || negb _); cbv zeta; cbn [fst];
      [| destruct (settle _)]; eexists; split; try reflexivity;
      simpl; auto.
  - rewrite route_search_trending_run; cbv zeta; cbn [fst].
    destruct (settle _); eexists; split; try reflexivity; simpl; auto.
  - rewrite route_coins_list_new_run; cbv zeta; cbn [fst].
    destruct (settle _); eexists; split; try reflexivity; simpl; auto.
  - rewrite route_token_by_address_run; cbv zeta.
    destruct (negb _ || negb _); cbn [fst];
      [| destruct (settle _)]; eexists; split; try reflexivity;
      simpl; auto.
Qed.

(** C1 (as amended). On the HTTP routes with required inputs
    (GET /simple/price: [ids], [vs_currencies];
    GET /coins/:chainId/contract/:tokenAddress: [chainId], [tokenAddress]),
    a request in which any required input is absent ([undefined], [null] or
    the empty string) is answered with the 400 validation body, and the
    upstream [fetch] is not invoked for it: the log of outbound calls is
    left as it was. *)
Theorem C1_http_validation_without_fetch
  (req : HttpRequest) (log : list Request) :
  (absent (obj_get (query req) "ids")
   \/ absent (obj_get (query req) "vs_currencies") ->
   outcome (route_simple_price req) log
   = Normal (mkHttpResponse 400 missing_price_parameters)
   /\ snd (route_simple_price req log) = log
   /\ fetches (route_simple_price req) log = 0%nat)
  /\ (absent (obj_get (params req) "chainId")
      \/ absent (obj_get (params req) "tokenAddress") ->
      outcome (route_token_by_address req) log
      = Normal (mkHttpResponse 400 missing_path_parameters)
      /\ snd (route_token_by_address req log) = log
      /\ fetches (route_token_by_address req) log = 0%nat).
Proof.
  split; intros H.
  - pose proof (route_simple_price_missing req log H) as R.
    unfold outcome, fetches; rewrite R; cbn [fst snd].
    repeat split; lia.
  - pose proof (route_token_by_address_missing req log H) as R.
    unfold outcome, fetches; rewrite R; cbn [fst snd].
    repeat split; lia.
Qed.

(** C3 (as amended). Price lookup and token-by-address return on success
    [{success: true, data, parameters}], [data] being the upstream JSON as
    received and [parameters] the query map handed to the upstream client
    (for token-by-address preceded by the two path identifiers).  Trending
    and new-listings return on success [{success: true, data, message}]
    with a fixed text and no [parameters] field.  Every operation returns on
    failure [{error: category, message}].  The HTTP body and the tool
    result's text carry these objects unaltered.  For the tool handlers
    this is stated on arguments whose values the handler itself
    stringifies ([String(...)] of the options, the template literal of the
    path) can be stringified; where that conversion throws the handler
    never reaches the upstream call. *)
Theorem C3_envelope_shapes
  (req : HttpRequest) (args : Js) (log : list Request) :
  let chainId := obj_get (params req) "chainId" in
  let tokenAddress := obj_get (params req) "tokenAddress" in
  let hp := http_price_params (query req) in
  let tp := tool_price_params args in
  let hq := token_params (obj_get (query req)) in
  let tq := token_params (opt_get args) in
  (truthy (obj_get (query req) "ids") = true ->
   truthy (obj_get (query req) "vs_currencies") = true ->
   envelope_law (http_envelope (outcome (route_simple_price req) log))
     (outcome (callCoinGeckoAPI "/simple/price" (Some hp)) log)
     "Failed to fetch price data"
     (fun data => JObj [("success", JBool true); ("data", data);
                        ("parameters", JObj hp)]))
  /\ (nullish args = false ->
      stringable_inputs (opt_get args) price_optional_names ->
      envelope_law
        (tool_result_envelope (outcome (handleGetSimplePrice args) log))
        (outcome (callCoinGeckoAPI "/simple/price" (Some tp)) log)
        "Failed to fetch price data"
        (fun data => JObj [("success", JBool true); ("data", data);
                           ("parameters", JObj tp)]))
  /\ envelope_law (http_envelope (outcome (route_search_trending req) log))
       (outcome (callCoinGeckoAPI "/search/trending" None) log)
       "Failed to fetch trending coins"
       (fun data => JObj [("success", JBool true); ("data", data);
                          ("message",
                           JStr "Trending coins fetched successfully")])
  /\ envelope_law
       (tool_result_envelope (outcome (handleGetTrendingCoins args) log))
       (outcome (callCoinGeckoAPI "/search/trending" None) log)
       "Failed to fetch trending coins"
       (fun data => JObj [("success", JBool true); ("data", data);
                          ("message",
                           JStr "Trending coins fetched successfully")])
  /\ envelope_law (http_envelope (outcome (route_coins_list_new req) log))
       (outcome (callCoinGeckoAPI "/coins/list/new" None) log)
       "Failed to fetch new coins"
       (fun data => JObj [("success", JBool true); ("data", data);
                          ("message",
                           JStr "Newly listed coins fetched successfully")])
  /\ envelope_law
       (tool_result_envelope (outcome (handleGetNewCoins args) log))
       (outcome (callCoinGeckoAPI "/coins/list/new" None) log)
       "Failed to fetch new coins"
       (fun data => JObj [("success", JBool true); ("data", data);
                          ("message",
                           JStr "Newly listed coins fetched successfully")])
  /\ (truthy chainId = true -> truthy tokenAddress = true ->
      envelope_law (http_envelope (outcome (route_token_by_address req) log))
        (outcome (callCoinGeckoAPI (token_endpoint chainId tokenAddress)
                    (params_or_undefined hq)) log)
        "Failed to fetch token data"
        (fun data =>
           JObj [("success", JBool true); ("data", data);
                 ("parameters",
                  JObj (obj_spread [("chainId", chainId);
                                    ("tokenAddress", tokenAddress)] hq))]))
  /\ (nullish args = false ->
      stringable_inputs (opt_get args) ["chainId"; "tokenAddress"] ->
      envelope_law
        (tool_result_envelope
           (outcome (handleGetTokenPriceByAddress args) log))
        (outcome (callCoinGeckoAPI
                    (token_endpoint (opt_get args "chainId")
                       (opt_get args "tokenAddress"))
                    (params_or_undefined tq)) log)
        "Failed to fetch token data"
        (fun data =>
           JObj [("success", JBool true); ("data", data);
                 ("parameters",
                  JObj (obj_spread
                          [("chainId", opt_get args "chainId");
                           ("tokenAddress", opt_get args "tokenAddress")]
                          tq))])).
Proof.
  cbv zeta; unfold envelope_law, outcome.
  rewrite !callCoinGeckoAPI_run; cbn [fst].
  rewrite route_search_trending_run, route_coins_list_new_run,
    handleGetTrendingCoins_run, handleGetNewCoins_run; cbv zeta; cbn [fst].
  repeat match goal with |- _ /\ _ => split end.
  - intros Hi Hv; rewrite route_simple_price_run, Hi, Hv; cbn [negb orb fst].
    cbv zeta; cbn [fst]; destruct (settle _); reflexivity.
  - intros N _; rewrite (handleGetSimplePrice_run args log N); cbv zeta.
    cbn [fst]; destruct (settle _); reflexivity.
  - destruct (settle _); reflexivity.
  - destruct (settle _); reflexivity.
  - destruct (settle _); reflexivity.
  - destruct (settle _); reflexivity.
  - intros Hc Ht; rewrite route_token_by_address_run; cbv zeta.
    rewrite Hc, Ht; cbn [negb orb fst]; destruct (settle _); reflexivity.
  - intros N _; rewrite (handleGetTokenPriceByAddress_run args log N).
    cbv zeta; cbn [fst]; destruct (settle _); reflexivity.
Qed.

Lemma set_if_truthy_text (o : Obj) (k : string) (v : Js) :
  unset_or_text v -> set_if_truthy o k v = set_String_if_defined o k v.
Proof.
  intros [-> | [s [-> Hs]]]; [reflexivity |].
  unfold set_if_truthy, set_String_if_defined; simpl.
  destruct s; [contradiction | reflexivity].
Qed.

Lemma price_params_agree (fields : Obj) :
  (forall k, In k price_optional_names -> unset_or_text (obj_get fields k)) ->
  http_price_params fields = tool_price_params (JObj fields).
Proof.
  intros H; unfold http_price_params, tool_price_params; cbv zeta.
  cbn [opt_get].
  rewrite !set_if_truthy_text; [reflexivity | ..];
    apply H; simpl; tauto.
Qed.

(** C2 (as amended). The facade methods are the tool dispatch applied to
    the object literal of their arguments, for all four operations and all
    inputs.  The HTTP route and the tool handler send the same requests
    upstream and return the same envelope for trending and new-listings
    always; for price lookup when [ids] and [vs_currencies] are truthy and
    each optional input is either not supplied or a non-empty string; for
    token-by-address when [chainId] and [tokenAddress] are truthy. *)
Theorem C2_surfaces_agree (log : list Request) :
  (forall a b c d e f g,
      getSimplePrice a b c d e f g
      = call_tool_request "get_simple_price"
          (JObj [("ids", a); ("vs_currencies", b);
                 ("include_market_cap", c); ("include_24hr_vol", d);
                 ("include_24hr_change", e);
                 ("include_last_updated_at", f); ("precision", g)]))
  /\ getTrendingCoins = call_tool_request "get_trending_coins" (JObj [])
  /\ getNewCoins = call_tool_request "get_new_coins" (JObj [])
  /\ (forall a b c d e f g h,
         getTokenPriceByAddress a b c d e f g h
         = call_tool_request "get_token_price_by_address"
             (JObj [("chainId", a); ("tokenAddress", b);
                    ("localization", c); ("tickers", d);
                    ("market_data", e); ("community_data", f);
                    ("developer_data", g); ("sparkline", h)]))
  /\ (forall req args,
         same_behaviour (route_search_trending req)
           (call_tool_request "get_trending_coins" args) log)
  /\ (forall req args,
         same_behaviour (route_coins_list_new req)
           (call_tool_request "get_new_coins" args) log)
  /\ (forall fields path,
         truthy (obj_get fields "ids") = true ->
         truthy (obj_get fields "vs_currencies") = true ->
         (forall k, In k price_optional_names ->
                    unset_or_text (obj_get fields k)) ->
         same_behaviour (route_simple_price (mkHttpRequest fields path))
           (call_tool_request "get_simple_price" (JObj fields)) log)
  /\ (forall q chainId tokenAddress,
         truthy chainId = true -> truthy tokenAddress = true ->
         same_behaviour
           (route_token_by_address
              (mkHttpRequest q [("chainId", chainId);
                                ("tokenAddress", tokenAddress)]))
           (call_tool_request "get_token_price_by_address"
              (JObj (("chainId", chainId) :: ("tokenAddress", tokenAddress)
                       :: q)))
           log).
Proof.
  repeat match goal with |- _ /\ _ => split end; try reflexivity.
  - intros req args; change (call_tool_request "get_trending_coins" args)
      with (handleGetTrendingCoins args); unfold same_behaviour.
    rewrite route_search_trending_run, handleGetTrendingCoins_run.
    cbv zeta; cbn [fst snd]; split; [reflexivity |].
    destruct (settle _); do 2 eexists; repeat split.
  - intros req args; change (call_tool_request "get_new_coins" args)
      with (handleGetNewCoins args); unfold same_behaviour.
    rewrite route_coins_list_new_run, handleGetNewCoins_run.
    cbv zeta; cbn [fst snd]; split; [reflexivity |].
    destruct (settle _); do 2 eexists; repeat split.
  - intros fields path Hi Hv Ho.
    change (call_tool_request "get_simple_price" (JObj fields))
      with (handleGetSimplePrice (JObj fields)); unfold same_behaviour.
    rewrite route_simple_price_run,
      (handleGetSimplePrice_run (JObj fields) log eq_refl).
    cbn [query]; rewrite Hi, Hv, (price_params_agree fields Ho).
    cbv zeta; cbn [negb orb fst snd]; split; [reflexivity |].
    destruct (settle _); do 2 eexists; repeat split.
  - intros q chainId tokenAddress Hc Ht.
    change (call_tool_request "get_token_price_by_address" ?a)
      with (handleGetTokenPriceByAddress a); unfold same_behaviour.
    rewrite route_token_by_address_run,
      (handleGetTokenPriceByAddress_run
         (JObj (("chainId", chainId) :: ("tokenAddress", tokenAddress) :: q))
         log eq_refl).
    cbn [params query obj_get opt_get String.eqb Ascii.eqb Bool.eqb].
    rewrite Hc, Ht; cbv zeta; cbn [negb orb fst snd].
    split; [reflexivity |].
    destruct (settle _); do 2 eexists; repeat split.
Qed.


Lemma no_query_marks_app (a b : string) :
  no_query_marks (a ++ b) = no_query_marks a && no_query_marks b.
Proof.
  induction a as [| ch a IH]; [reflexivity |].
  simpl; rewrite IH, !andb_assoc; reflexivity.
Qed.

Lemma href_query_without_marks (text : string) :
  no_query_marks text = true -> href_query text = EmptyString.
Proof.
  unfold href_query; intros H.
  assert (E : before_fragment text = text /\ after_question text = None).
  { induction text as [| ch text IH]; [split; reflexivity |].
    simpl in H; apply andb_true_iff in H; destruct H as [H Hr].
    apply andb_true_iff in H; destruct H as [Hq Hh].
    destruct (IH Hr) as [E1 E2]; simpl.
    destruct (Ascii.eqb ch "#"); [discriminate |].
    destruct (Ascii.eqb ch "?"); [discriminate |].
    rewrite E1; split; [reflexivity | exact E2]. }
  destruct E as [-> ->]; reflexivity.
Qed.

Lemma request_query_without_marks (u : Url) :
  no_query_marks (url_href u) = true ->
  request_query u = Some (url_searchParams u).
Proof.
  intros H; unfold request_query.
  rewrite (href_query_without_marks _ H); reflexivity.
Qed.


(** C7. The payment gate has two states, decided once from the process
    configuration: it is enabled, that is the payment middleware with its
    static route table is installed ahead of the routers, exactly when both
    the facilitator URL and the payout address are configured; otherwise
    the application has no payment layer at all, so the four operation
    routes of the CoinGecko router are reached through no gate.  The route
    table names these four routes under their ["/mcp"] mount, and the
    JSON-RPC endpoint. *)
Theorem C7_payment_gate_two_states :
  (gate_enabled = true
   <-> exists u a,
         env "FACILITATOR_URL" = Some u /\ u <> EmptyString
         /\ env "ADDRESS" = Some a /\ a <> EmptyString)
  /\ (gate_enabled = true
      <-> getFacilitatorUrl <> JNull /\ getPaymentAddress <> JNull)
  /\ gate_enabled = isPaymentConfigured
  /\ (gate_enabled = true ->
      app = [Cors; ExpressJson;
             PaymentMiddleware payTo payment_routes facilitatorUrl;
             Mount "/" healthRoutes; Mount "/mcp" mcpRoutes;
             Mount "/mcp" coingeckoRoutes; ErrorHandlerLayer]
      /\ layers_ahead_of coingeckoRoutes app
         = [Cors; ExpressJson;
            PaymentMiddleware payTo payment_routes facilitatorUrl;
            Mount "/" healthRoutes; Mount "/mcp" mcpRoutes])
  /\ (gate_enabled = false ->
      app = [Cors; ExpressJson;
             Mount "/" healthRoutes; Mount "/mcp" mcpRoutes;
             Mount "/mcp" coingeckoRoutes; ErrorHandlerLayer]
      /\ existsb is_payment_layer (layers_ahead_of coingeckoRoutes app)
         = false)
  /\ map fst payment_routes
     = (map (fun path => ("GET /mcp" ++ path)%string) operation_routes
          ++ ["GET /mcp"])%list.
Proof using env PAYMENT_CONFIG.
  clear net stack_trace now.
  unfold gate_enabled, isPaymentConfigured, app, facilitatorUrl, payTo,
    getFacilitatorUrl, getPaymentAddress, process_env.
  destruct (env "FACILITATOR_URL") as [[| x u] |];
    destruct (env "ADDRESS") as [[| y a] |]; cbn;
    repeat match goal with |- _ /\ _ => split end;
    try reflexivity; try discriminate; try tauto;
    try (split; [discriminate | intros [H1 H2]; congruence]);
    try (split; [discriminate |
                 intros [u' [a' [H1 [H2 [H3 H4]]]]]; congruence]).
  - split; [intros _ | reflexivity].
    do 2 eexists; repeat split; discriminate.
  - split; [intros _; split; discriminate | reflexivity].
Qed.

Lemma eqb_of_not_in (x y : string) (l : list string) :
  ~ In x l -> In y l -> (x =? y)%string = false.
Proof.
  intros Hx Hy; destruct (String.eqb_spec x y) as [-> | _];
    [contradiction | reflexivity].
Qed.

(** C8. In the tool-call request handler a name outside the four tool
    names is answered, normally, with one text block reading
    [Error: Unknown tool <name>]; in the resource-read request handler a
    URI outside the four resource URIs makes the handler throw
    [Unknown resource: <uri>].  Neither touches the network. *)
Theorem C8_unknown_name_and_uri
  (name u : string) (args : Js) (log : list Request) :
  ~ In name tool_names ->
  ~ In u resource_uris ->
  call_tool_request name args log
  = (Normal (mkToolResult
               [mkContentBlock "text" (Lit ("Error: Unknown tool " ++ name))]),
     log)
  /\ read_resource_request u log
     = (Throw (ErrorObj "Error" ("Unknown resource: " ++ u) stack_trace), log).
Proof.
  intros Hn Hu; split.
  - unfold call_tool_request.
    rewrite !(eqb_of_not_in name _ tool_names Hn) by (simpl; tauto).
    reflexivity.
  - unfold read_resource_request.
    rewrite !(eqb_of_not_in u _ resource_uris Hu) by (simpl; tauto).
    reflexivity.
Qed.

(** C10. The get-prompt dispatch treats missing arguments unevenly.
    [crypto_price_check] without arguments, or with [tokens] and
    [currencies] missing, succeeds with the defaults
    [bitcoin,ethereum,solana] and [usd,eur].  [token_research] with a
    missing [address] throws; with an address and a missing [chain] it
    succeeds with the chain defaulted to [ethereum]. *)
Theorem C10_prompt_argument_defaults (args : Js) (log : list Request) :
  get_prompt_request "crypto_price_check" JUndefined log
  = (Normal (user_prompt
               "Please check the current prices for bitcoin,ethereum,solana in usd,eur. Use the get_simple_price tool with these parameters."),
     log)
  /\ (absent (opt_get args "tokens") ->
      absent (opt_get args "currencies") ->
      get_prompt_request "crypto_price_check" args log
      = get_prompt_request "crypto_price_check"
          (JObj [("tokens", JStr "bitcoin,ethereum,solana");
                 ("currencies", JStr "usd,eur")]) log)
  /\ (absent (opt_get args "address") ->
      get_prompt_request "token_research" args log
      = (Throw (ErrorObj "Error"
                  "Token address is required for token research" stack_trace),
         log))
  /\ get_prompt_request "token_research" JUndefined log
     = (Throw (ErrorObj "Error"
                 "Token address is required for token research" stack_trace),
        log)
  /\ (absent (opt_get args "chain") ->
      truthy (opt_get args "address") = true ->
      get_prompt_request "token_research" args log
      = (Normal (user_prompt
                   ("Please research the token at address "
                      ++ js_String (opt_get args "address")
                      ++ " on ethereum blockchain. Use the get_token_price_by_address tool with market_data=true to get comprehensive information including price, market cap, volume, and other key metrics.")),
         log)).
Proof.
  split; [reflexivity |].
  split.
  { intros Ht Hc.
    change (get_prompt_request "crypto_price_check" args)
      with (handleCryptoPriceCheckPrompt args).
    unfold handleCryptoPriceCheckPrompt, js_or.
    rewrite (absent_falsy _ Ht), (absent_falsy _ Hc); reflexivity. }
  split.
  { intros Ha.
    change (get_prompt_request "token_research" args)
      with (handleTokenResearchPrompt args).
    unfold handleTokenResearchPrompt.
    rewrite (absent_falsy _ Ha); reflexivity. }
  split; [reflexivity |].
  intros Hc Ha.
  change (get_prompt_request "token_research" args)
    with (handleTokenResearchPrompt args).
  unfold handleTokenResearchPrompt, js_or.
  rewrite (absent_falsy _ Hc), Ha; reflexivity.
Qed.


(* ================================================================== *)
(** ** Further properties of the handlers *)

(** The public [callTool] runs the same handlers as the tool-call request
    handler on the four tool names; on any other name it throws
    [Unknown tool: <name>] without touching the network, where the request
    handler answers with a text block. *)
Theorem callTool_unknown_throws
  (name : string) (args : Js) (log : list Request) :
  (In name tool_names ->
   callTool name args log = call_tool_request name args log)
  /\ (~ In name tool_names ->
      callTool name args log
      = (Throw (ErrorObj "Error" ("Unknown tool: " ++ name) stack_trace), log)).
Proof.
  split.
  - simpl; intros [<- | [<- | [<- | [<- | []]]]]; reflexivity.
  - intros Hn; unfold callTool.
    rewrite !(eqb_of_not_in name _ tool_names Hn) by (simpl; tauto).
    reflexivity.
Qed.

(** A tool call that carries no arguments object ([undefined] or [null]):
    price lookup and token-by-address fetch nothing and answer with their
    failure envelope; trending and new-listings do not read their arguments
    at all. *)
Theorem tool_call_without_arguments
  (args : Js) (log : list Request) :
  nullish args = true ->
  (exists message,
      handleGetSimplePrice args log
      = (Normal (text_result
                   (JSON_stringify
                      (JObj [("error", JStr "Failed to fetch price data");
                             ("message", JStr message)]))),
         log))
  /\ (exists message,
         handleGetTokenPriceByAddress args log
         = (Normal (text_result
                      (JSON_stringify
                         (JObj [("error", JStr "Failed to fetch token data");
                                ("message", JStr message)]))),
            log))
  /\ (forall other,
         handleGetTrendingCoins args log = handleGetTrendingCoins other log)
  /\ (forall other,
         handleGetNewCoins args log = handleGetNewCoins other log).
Proof.
  intros N.
  destruct (handleGetSimplePrice_nullish args log N) as [e1 H1].
  destruct (handleGetTokenPriceByAddress_nullish args log N) as [e2 H2].
  split; [exists (error_message e1); exact H1 |].
  split; [exists (error_message e2); exact H2 |].
  split; intros other; reflexivity.
Qed.

(* Query maps *)

Lemma truthy_keep (k : string) (v : Js) :
  truthy v = true -> keep_entry (k, v) = true.
Proof.
  destruct v as [ | | b | n | s | l | o]; simpl; intros H;
    try discriminate; try reflexivity.
  destruct s; [discriminate | reflexivity].
Qed.

Lemma sent_entries_iff (endpoint : string) (entries : Obj)
  (k s : string) :
  In (k, s) (url_searchParams (build_url endpoint (Some entries)))
  <-> exists v, In (k, v) entries /\ ~ absent v /\ s = js_String v.
Proof.
  simpl; split.
  - induction entries as [| [k' v'] rest IH]; [intros [] |].
    simpl; destruct (keep_entry (k', v')) eqn:E.
    + intros [Heq | Hin].
      * inversion Heq; subst.
        exists v'; repeat split; [left; reflexivity |].
        intros Habs; rewrite (keep_entry_absent k v' Habs) in E;
          discriminate.
      * destruct (IH Hin) as [v [Hv1 [Hv2 Hv3]]].
        exists v; repeat split; [right | |]; assumption.
    + intros Hin; destruct (IH Hin) as [v [Hv1 [Hv2 Hv3]]].
      exists v; repeat split; [right | |]; assumption.
  - intros [v [Hin [Hv ->]]]; revert Hin.
    induction entries as [| [k' v'] rest IH]; [intros [] |].
    intros [Heq | Hin].
    + inversion Heq; subst; simpl.
      rewrite (keep_entry_present _ _ Hv); left; reflexivity.
    + specialize (IH Hin); simpl in *.
      destruct (keep_entry (k', v')); [right |]; exact IH.
Qed.

Lemma sent_keys_iff (endpoint : string) (entries : Obj) (k : string) :
  In k (map fst (url_searchParams (build_url endpoint (Some entries))))
  <-> exists v, In (k, v) entries /\ ~ absent v.
Proof.
  rewrite in_map_iff; split.
  - intros [[k' s] [Hk Hin]]; simpl in Hk; subst k'.
    apply sent_entries_iff in Hin; destruct Hin as [v [H1 [H2 _]]].
    exists v; split; assumption.
  - intros [v [H1 H2]]; exists (k, js_String v); split; [reflexivity |].
    apply sent_entries_iff; exists v; repeat split; assumption.
Qed.

Lemma sent_keys_NoDup (endpoint : string) (entries : Obj) :
  NoDup (obj_keys entries) ->
  NoDup (map fst (url_searchParams (build_url endpoint (Some entries)))).
Proof.
  simpl; induction entries as [| [k v] rest IH]; simpl; [constructor |].
  intros H; inversion H as [| ? ? Hnot Hrest]; subst.
  destruct (keep_entry (k, v)); [| exact (IH Hrest)].
  simpl; constructor; [| exact (IH Hrest)].
  intros Hin; apply Hnot.
  apply (sent_keys_iff endpoint rest k) in Hin.
  destruct Hin as [v' [Hin _]].
  unfold obj_keys; apply in_map_iff; exists (k, v'); split;
    [reflexivity | exact Hin].
Qed.

Lemma sent_all_kept (endpoint : string) (entries : Obj) :
  Forall (fun kv => truthy (snd kv) = true) entries ->
  url_searchParams (build_url endpoint (Some entries))
  = map (fun kv => (fst kv, js_String (snd kv))) entries.
Proof.
  simpl; induction 1 as [| [k v] rest Hv _ IH]; [reflexivity |].
  simpl; rewrite (truthy_keep k v Hv); simpl; rewrite IH; reflexivity.
Qed.

(** Keys that are string literals are told apart by computation. *)
Ltac distinct_keys :=
  repeat match goal with
         | |- NoDup [] => constructor
         | |- NoDup (_ :: _) => constructor
         | |- ~ In _ _ => simpl; intuition discriminate
         end.

Ltac in_literal := simpl; repeat (first [left; reflexivity | right]).

Lemma obj_set_fresh (o : Obj) (k : string) (v : Js) :
  ~ In k (obj_keys o) -> obj_set o k v = (o ++ [(k, v)])%list.
Proof.
  induction o as [| [k' v'] rest IH]; simpl; intros H; [reflexivity |].
  destruct (String.eqb_spec k' k) as [-> | _]; [exfalso; auto |].
  rewrite IH; [reflexivity | auto].
Qed.

Lemma obj_spread_fresh (base extra : Obj) :
  NoDup (obj_keys extra) ->
  (forall k, In k (obj_keys extra) -> ~ In k (obj_keys base)) ->
  obj_spread base extra = (base ++ extra)%list.
Proof.
  unfold obj_spread; revert base.
  induction extra as [| [k v] rest IH]; intros base Hnd Hfresh; simpl.
  - rewrite app_nil_r; reflexivity.
  - inversion Hnd as [| ? ? Hk Hrest]; subst.
    rewrite obj_set_fresh by (apply Hfresh; left; reflexivity).
    rewrite IH; [rewrite <- app_assoc; reflexivity | exact Hrest |].
    intros k' Hin; unfold obj_keys; rewrite map_app, in_app_iff.
    intros [Hb | [<- | []]].
    + exact (Hfresh k' (or_intror Hin) Hb).
    + exact (Hk Hin).
Qed.

Lemma in_entries_when (test : Js -> bool) (conv : Js -> Js)
  (src : string -> Js) (names : list string) (k : string) (x : Js) :
  In (k, x) (entries_when test conv src names)
  <-> In k names /\ test (src k) = true /\ x = conv (src k).
Proof.
  unfold entries_when; rewrite in_flat_map; unfold entry_when; split.
  - intros [k' [Hk Hin]]; destruct (test (src k')) eqn:E; [| destruct Hin].
    destruct Hin as [Heq | []]; inversion Heq; subst; auto.
  - intros [Hk [Ht ->]]; exists k; split; [exact Hk |].
    rewrite Ht; left; reflexivity.
Qed.

Lemma keys_entries_when (test : Js -> bool) (conv : Js -> Js)
  (src : string -> Js) (names : list string) (k : string) :
  In k (obj_keys (entries_when test conv src names)) -> In k names.
Proof.
  unfold obj_keys; rewrite in_map_iff; intros [[k' x] [Hk Hin]].
  simpl in Hk; subst k'; apply in_entries_when in Hin; tauto.
Qed.

Lemma NoDup_entries_when (test : Js -> bool) (conv : Js -> Js)
  (src : string -> Js) (names : list string) :
  NoDup names -> NoDup (obj_keys (entries_when test conv src names)).
Proof.
  induction 1 as [| k names Hk Hnd IH]; [constructor |].
  unfold entries_when; simpl; fold (entries_when test conv src names).
  unfold entry_when; destruct (test (src k)); simpl; [| exact IH].
  constructor; [| exact IH].
  intros Hin; apply Hk; exact (keys_entries_when _ _ _ _ _ Hin).
Qed.

(** One optional assignment extends a run of them by its own entry. *)
Lemma set_when_step (test : Js -> bool) (conv : Js -> Js)
  (src : string -> Js) (base : Obj) (names : list string) (o : Obj)
  (k : string) :
  o = (base ++ entries_when test conv src names)%list ->
  ~ In k (obj_keys base) -> ~ In k names ->
  (if test (src k) then obj_set o k (conv (src k)) else o)
  = (base ++ entries_when test conv src (names ++ [k]))%list.
Proof.
  intros -> Hb Hn.
  assert (E : entries_when test conv src (names ++ [k])
              = (entries_when test conv src names
                   ++ entry_when test conv src k)%list).
  { unfold entries_when; rewrite flat_map_app; simpl.
    rewrite app_nil_r; reflexivity. }
  rewrite E; unfold entry_when; destruct (test (src k)).
  - rewrite obj_set_fresh; [rewrite app_assoc; reflexivity |].
    unfold obj_keys; rewrite map_app, in_app_iff; intros [H | H];
      [exact (Hb H) | exact (Hn (keys_entries_when _ _ _ _ _ H))].
  - rewrite app_nil_r; reflexivity.
Qed.

Ltac distinct_literal := simpl; intuition discriminate.

Lemma http_price_params_flat (q : Obj) :
  http_price_params q
  = ([("ids", obj_get q "ids"); ("vs_currencies", obj_get q "vs_currencies")]
       ++ entries_when truthy (fun v => v) (obj_get q) price_optional_names)%list.
Proof.
  unfold http_price_params, set_if_truthy; cbv zeta.
  apply (set_when_step truthy (fun v => v) (obj_get q) _
           ["include_market_cap"; "include_24hr_vol"; "include_24hr_change";
            "include_last_updated_at"]); [| distinct_literal ..].
  apply (set_when_step truthy (fun v => v) (obj_get q) _
           ["include_market_cap"; "include_24hr_vol"; "include_24hr_change"]);
    [| distinct_literal ..].
  apply (set_when_step truthy (fun v => v) (obj_get q) _
           ["include_market_cap"; "include_24hr_vol"]);
    [| distinct_literal ..].
  apply (set_when_step truthy (fun v => v) (obj_get q) _
           ["include_market_cap"]); [| distinct_literal ..].
  apply (set_when_step truthy (fun v => v) (obj_get q) _ []);
    [| distinct_literal ..].
  reflexivity.
Qed.

Lemma tool_price_params_flat (args : Js) :
  tool_price_params args
  = ([("ids", opt_get args "ids");
      ("vs_currencies", opt_get args "vs_currencies")]
       ++ entries_when is_defined as_text (opt_get args)
            price_optional_names)%list.
Proof.
  unfold tool_price_params, set_String_if_defined; cbv zeta.
  apply (set_when_step is_defined as_text (opt_get args) _
           ["include_market_cap"; "include_24hr_vol"; "include_24hr_change";
            "include_last_updated_at"]); [| distinct_literal ..].
  apply (set_when_step is_defined as_text (opt_get args) _
           ["include_market_cap"; "include_24hr_vol"; "include_24hr_change"]);
    [| distinct_literal ..].
  apply (set_when_step is_defined as_text (opt_get args) _
           ["include_market_cap"; "include_24hr_vol"]);
    [| distinct_literal ..].
  apply (set_when_step is_defined as_text (opt_get args) _
           ["include_market_cap"]); [| distinct_literal ..].
  apply (set_when_step is_defined as_text (opt_get args) _ []);
    [| distinct_literal ..].
  reflexivity.
Qed.

Lemma token_params_flat (src : string -> Js) :
  token_params src
  = entries_when is_defined (fun v => v) src token_optional_names.
Proof.
  unfold token_params, set_if_defined; cbv zeta.
  apply (set_when_step is_defined (fun v => v) src []
           ["localization"; "tickers"; "market_data"; "community_data";
            "developer_data"]); [| distinct_literal ..].
  apply (set_when_step is_defined (fun v => v) src []
           ["localization"; "tickers"; "market_data"; "community_data"]);
    [| distinct_literal ..].
  apply (set_when_step is_defined (fun v => v) src []
           ["localization"; "tickers"; "market_data"]);
    [| distinct_literal ..].
  apply (set_when_step is_defined (fun v => v) src []
           ["localization"; "tickers"]); [| distinct_literal ..].
  apply (set_when_step is_defined (fun v => v) src [] ["localization"]);
    [| distinct_literal ..].
  apply (set_when_step is_defined (fun v => v) src [] []);
    [| distinct_literal ..].
  reflexivity.
Qed.

Lemma NoDup_price_optional_names : NoDup price_optional_names.
Proof. unfold price_optional_names; distinct_keys. Qed.

Lemma NoDup_token_optional_names : NoDup token_optional_names.
Proof. unfold token_optional_names; distinct_keys. Qed.

Lemma NoDup_with_required (a b : string) (va vb : Js) (names : list string)
  (extra : Obj) :
  a <> b -> ~ In a names -> ~ In b names ->
  (forall k, In k (obj_keys extra) -> In k names) ->
  NoDup (obj_keys extra) ->
  NoDup (obj_keys ((a, va) :: (b, vb) :: extra)).
Proof.
  intros Hab Ha Hb Hsub Hnd; simpl.
  constructor; [intros [H | H]; [congruence | exact (Ha (Hsub _ H))] |].
  constructor; [intros H; exact (Hb (Hsub _ H)) | exact Hnd].
Qed.

Lemma http_price_params_NoDup (q : Obj) :
  NoDup (obj_keys (http_price_params q)).
Proof.
  rewrite http_price_params_flat.
  apply (NoDup_with_required _ _ _ _ price_optional_names);
    [discriminate | distinct_literal | distinct_literal | |].
  - intros k; apply keys_entries_when.
  - apply NoDup_entries_when, NoDup_price_optional_names.
Qed.

Lemma http_price_params_entries (q : Obj) (k : string) (v : Js) :
  truthy (obj_get q "ids") = true ->
  truthy (obj_get q "vs_currencies") = true ->
  In (k, v) (http_price_params q) ->
  In k price_input_names /\ v = obj_get q k /\ truthy v = true.
Proof.
  intros Hi Hv; rewrite http_price_params_flat.
  intros [H | [H | H]].
  - inversion H; subst; repeat split; [in_literal | exact Hi].
  - inversion H; subst; repeat split; [in_literal | exact Hv].
  - apply in_entries_when in H; destruct H as [Hk [Ht ->]].
    repeat split; [right; right; exact Hk | exact Ht].
Qed.

Lemma http_price_params_complete (q : Obj) (k : string) :
  In k price_input_names ->
  truthy (obj_get q k) = true ->
  In (k, obj_get q k) (http_price_params q).
Proof.
  intros Hk Ht; rewrite http_price_params_flat.
  destruct Hk as [<- | [<- | Hk]]; [left; reflexivity
                                   | right; left; reflexivity |].
  right; right; apply in_entries_when; auto.
Qed.

(** On [GET /simple/price], once validation has passed, the request sent
    upstream carries exactly the echoed parameters, stringified: each
    declared input whose query value is truthy, once and in declaration
    order, with the value received.  A query key that is not a declared
    input is never forwarded, and nothing echoed is held back.  The query
    values are taken to be stringifiable, as the texts and lists of texts
    of a query string are; a value whose conversion throws makes the route
    answer 500 instead. *)
Theorem http_price_query_is_echo (req : HttpRequest) (log : list Request) :
  truthy (obj_get (query req) "ids") = true ->
  truthy (obj_get (query req) "vs_currencies") = true ->
  stringable_inputs (obj_get (query req)) price_input_names ->
  let echoed := http_price_params (query req) in
  snd (route_simple_price req log)
  = (log ++ [mkRequest
               (mkUrl (COINGECKO_BASE_URL ++ "/simple/price")
                  (map (fun kv => (fst kv, js_String (snd kv))) echoed))
               request_headers])%list
  /\ (forall k v,
         In (k, v) echoed
         <-> In k price_input_names /\ v = obj_get (query req) k
             /\ truthy v = true)
  /\ NoDup (obj_keys echoed).
Proof.
  intros Hi Hv _; cbv zeta.
  split; [| split].
  - rewrite route_simple_price_run, Hi, Hv; cbv zeta; cbn [negb orb snd].
    unfold build_request.
    rewrite <- (sent_all_kept "/simple/price"); [reflexivity |].
    apply Forall_forall; intros [k v] Hin.
    apply (http_price_params_entries _ _ _ Hi Hv Hin).
  - intros k v; split.
    + apply http_price_params_entries; assumption.
    + intros [Hk [-> Ht]]; apply http_price_params_complete; assumption.
  - apply http_price_params_NoDup.
Qed.

Lemma is_undefined_false (v : Js) : is_undefined v = false <-> v <> JUndefined.
Proof.
  destruct v; simpl; split; intros H; try discriminate; try reflexivity;
    try congruence.
Qed.

Lemma tool_price_params_NoDup (args : Js) :
  NoDup (obj_keys (tool_price_params args)).
Proof.
  rewrite tool_price_params_flat.
  apply (NoDup_with_required _ _ _ _ price_optional_names);
    [discriminate | distinct_literal | distinct_literal | |].
  - intros k; apply keys_entries_when.
  - apply NoDup_entries_when, NoDup_price_optional_names.
Qed.

Lemma tool_price_params_entries (args : Js) (k : string) (x : Js) :
  In k price_optional_names ->
  In (k, x) (tool_price_params args) ->
  is_undefined (opt_get args k) = false
  /\ x = JStr (js_String (opt_get args k)).
Proof.
  intros Hk; rewrite tool_price_params_flat.
  intros [H | [H | H]].
  - inversion H; subst; exfalso; revert Hk; distinct_literal.
  - inversion H; subst; exfalso; revert Hk; distinct_literal.
  - apply in_entries_when in H; destruct H as [_ [Ht ->]].
    split; [| reflexivity].
    unfold is_defined in Ht; destruct (is_undefined (opt_get args k));
      [discriminate | reflexivity].
Qed.

(** The optional inputs of the price tool, for arguments whose declared
    inputs can be stringified (texts, booleans, safe integers, [null],
    lists of these, objects without a [toString] entry).  An option that is
    not supplied is neither echoed nor sent.  An option that is supplied is
    echoed as its [String(...)] text and sent as that text unless the text
    is empty; so [null] is sent upstream as the text ["null"]. *)
Theorem tool_price_option_forwarding
  (args : Js) (k : string) (log : list Request) :
  nullish args = false ->
  stringable_inputs (opt_get args) price_input_names ->
  In k price_optional_names ->
  let v := opt_get args k in
  let echoed := tool_price_params args in
  let sent := url_searchParams (build_url "/simple/price" (Some echoed)) in
  snd (handleGetSimplePrice args log)
  = (log ++ [mkRequest (mkUrl (COINGECKO_BASE_URL ++ "/simple/price") sent)
               request_headers])%list
  /\ (forall x, In (k, x) echoed <-> v <> JUndefined /\ x = JStr (js_String v))
  /\ (forall s,
         In (k, s) sent
         <-> v <> JUndefined /\ s = js_String v /\ s <> EmptyString)
  /\ (v = JNull -> In (k, "null") sent)
  /\ NoDup (map fst sent).
Proof.
  intros N _ Hk; cbv zeta.
  assert (Hech : forall x,
             In (k, x) (tool_price_params args)
             <-> opt_get args k <> JUndefined
                 /\ x = JStr (js_String (opt_get args k))).
  { intros x; split.
    - intros H; destruct (tool_price_params_entries args k x Hk H) as [H1 H2].
      split; [apply is_undefined_false |]; assumption.
    - intros [H1 ->]; apply tool_price_params_optional; [exact Hk |].
      apply is_undefined_false; exact H1. }
  assert (Hsent : forall s,
             In (k, s) (url_searchParams
                          (build_url "/simple/price"
                             (Some (tool_price_params args))))
             <-> opt_get args k <> JUndefined
                 /\ s = js_String (opt_get args k) /\ s <> EmptyString).
  { intros s; rewrite sent_entries_iff; split.
    - intros [x [Hin [Hx ->]]].
      apply Hech in Hin; destruct Hin as [Hv ->].
      repeat split; [exact Hv |].
      intros He; apply Hx; right; right; simpl in He; rewrite He.
      reflexivity.
    - intros [Hv [-> Hs]].
      exists (JStr (js_String (opt_get args k))).
      split; [apply Hech; split; [exact Hv | reflexivity] |].
      split; [| reflexivity].
      intros [H | [H | H]]; try discriminate.
      inversion H as [H']; exact (Hs H'). }
  split; [rewrite (handleGetSimplePrice_run args log N); reflexivity |].
  split; [exact Hech |].
  split; [exact Hsent |].
  split.
  - intros Hnull; apply Hsent; rewrite Hnull.
    repeat split; discriminate.
  - apply sent_keys_NoDup, tool_price_params_NoDup.
Qed.

Lemma token_params_NoDup (src : string -> Js) :
  NoDup (obj_keys (token_params src)).
Proof.
  rewrite token_params_flat.
  apply NoDup_entries_when, NoDup_token_optional_names.
Qed.

Lemma token_params_entries (src : string -> Js) (k : string) (x : Js) :
  In (k, x) (token_params src)
  <-> In k token_optional_names /\ x = src k /\ x <> JUndefined.
Proof.
  rewrite token_params_flat, in_entries_when; unfold is_defined.
  split.
  - intros [Hk [Ht ->]]; repeat split; [exact Hk |].
    apply is_undefined_false; destruct (is_undefined (src k));
      [discriminate | reflexivity].
  - intros [Hk [-> Hx]]; repeat split; [exact Hk |].
    apply is_undefined_false in Hx; rewrite Hx; reflexivity.
Qed.

Lemma token_spread (src : string -> Js) (c t : Js) :
  obj_spread [("chainId", c); ("tokenAddress", t)] (token_params src)
  = ("chainId", c) :: ("tokenAddress", t) :: token_params src.
Proof.
  rewrite obj_spread_fresh; [reflexivity | apply token_params_NoDup |].
  intros k Hk; rewrite token_params_flat in Hk.
  apply keys_entries_when in Hk; revert Hk.
  simpl; intuition (subst; discriminate).
Qed.

Lemma params_or_undefined_same_request (endpoint : string) (o : Obj) :
  build_request endpoint (params_or_undefined o)
  = build_request endpoint (Some o).
Proof.
  destruct o; reflexivity.
Qed.

(** Token-by-address, route and tool handler alike.  The options echoed
    are exactly the supplied ones among the six declared names, each once
    and with the value received; the echoed parameters start with
    [chainId] and [tokenAddress], which no option overrides.  Upstream
    receives the echoed options minus those that are [null] or empty, and
    whether the map is passed or replaced by [undefined] makes no
    difference to the request.  This is stated for a chain identifier and a
    token address that can be stringified and contain neither [?] nor [#],
    and for option values that can be stringified: then the request that
    goes out has the appended entries as its whole query. *)
Theorem token_options_echo (q : Obj) (c t : Js) (log : list Request) :
  stringable c = true -> stringable t = true ->
  no_query_marks (js_String c) = true ->
  no_query_marks (js_String t) = true ->
  stringable_inputs (obj_get q) token_optional_names ->
  let options := token_params (obj_get q) in
  let rq := build_request (token_endpoint c t) (Some options) in
  let call := callCoinGeckoAPI (token_endpoint c t) (Some options) in
  let echoed := JObj (("chainId", c) :: ("tokenAddress", t) :: options) in
  let route :=
    route_token_by_address
      (mkHttpRequest q [("chainId", c); ("tokenAddress", t)]) in
  let handler :=
    handleGetTokenPriceByAddress
      (JObj (("chainId", c) :: ("tokenAddress", t) :: q)) in
  (forall k x,
      In (k, x) options
      <-> In k token_optional_names /\ x = obj_get q k /\ x <> JUndefined)
  /\ NoDup (obj_keys options)
  /\ (forall k,
         In k (map fst (url_searchParams (req_url rq)))
         <-> In k token_optional_names /\ ~ absent (obj_get q k))
  /\ request_query (req_url rq) = Some (url_searchParams (req_url rq))
  /\ (truthy c = true -> truthy t = true ->
      snd (route log) = (log ++ [rq])%list
      /\ forall data,
           outcome call log = Normal data ->
           outcome route log
           = Normal (mkHttpResponse 200
                       (JObj [("success", JBool true); ("data", data);
                              ("parameters", echoed)])))
  /\ snd (handler log) = (log ++ [rq])%list
  /\ (forall data,
         outcome call log = Normal data ->
         outcome handler log
         = Normal (text_result
                     (JSON_stringify
                        (JObj [("success", JBool true); ("data", data);
                               ("parameters", echoed)])))).
Proof.
  intros Sc St Mc Mt So; cbv zeta.
  split; [intros k x; apply token_params_entries |].
  split; [apply token_params_NoDup |].
  split.
  { intros k; cbn [req_url build_request]; rewrite sent_keys_iff; split.
    - intros [v [Hin Hv]]; apply token_params_entries in Hin.
      destruct Hin as [Hk [-> _]]; split; assumption.
    - intros [Hk Hv]; exists (obj_get q k); split; [| exact Hv].
      apply token_params_entries; repeat split; [exact Hk |].
      intros E; apply Hv; left; exact E. }
  split.
  { apply request_query_without_marks.
    cbn [req_url build_request build_url url_href]; unfold token_endpoint.
    rewrite !no_query_marks_app, Mc, Mt; reflexivity. }
  unfold outcome; rewrite callCoinGeckoAPI_run; cbn [fst].
  split.
  { intros Hc Ht; rewrite route_token_by_address_run; cbv zeta.
    cbn [params query obj_get String.eqb Ascii.eqb Bool.eqb].
    rewrite Hc, Ht; cbn [negb orb fst snd].
    rewrite params_or_undefined_same_request, token_spread.
    split; [reflexivity |].
    intros data ->; reflexivity. }
  rewrite (handleGetTokenPriceByAddress_run
             (JObj (("chainId", c) :: ("tokenAddress", t) :: q)) log eq_refl).
  cbv zeta; cbn [fst snd].
  change (token_params
            (opt_get (JObj (("chainId", c) :: ("tokenAddress", t) :: q))))
    with (token_params (obj_get q)).
  cbn [opt_get obj_get String.eqb Ascii.eqb Bool.eqb].
  rewrite params_or_undefined_same_request, token_spread.
  split; [reflexivity |].
  intros data ->; reflexivity.
Qed.

Lemma entries_when_ext (test : Js -> bool) (conv : Js -> Js)
  (src src' : string -> Js) (names : list string) :
  (forall k, In k names -> src k = src' k) ->
  entries_when test conv src names = entries_when test conv src' names.
Proof.
  induction names as [| k names IH]; [reflexivity |].
  intros H.
  change (entries_when test conv src (k :: names))
    with (entry_when test conv src k
            ++ entries_when test conv src names)%list.
  change (entries_when test conv src' (k :: names))
    with (entry_when test conv src' k
            ++ entries_when test conv src' names)%list.
  rewrite IH by (intros k' Hk'; apply H; right; exact Hk').
  unfold entry_when; rewrite (H k (or_introl eq_refl)); reflexivity.
Qed.

(** The tool handlers read their declared inputs and nothing else: two
    argument objects that agree on the declared inputs of an operation get
    the same result and cause the same request. *)
Theorem tool_handlers_read_declared_inputs
  (a b : Js) (log : list Request) :
  nullish a = false -> nullish b = false ->
  ((forall k, In k price_input_names -> opt_get a k = opt_get b k) ->
   handleGetSimplePrice a log = handleGetSimplePrice b log)
  /\ ((forall k,
          In k ("chainId" :: "tokenAddress" :: token_optional_names) ->
          opt_get a k = opt_get b k) ->
      handleGetTokenPriceByAddress a log = handleGetTokenPriceByAddress b log).
Proof.
  intros Na Nb; split; intros H.
  - rewrite (handleGetSimplePrice_run a log Na),
      (handleGetSimplePrice_run b log Nb).
    assert (E : tool_price_params a = tool_price_params b).
    { rewrite !tool_price_params_flat.
      rewrite (H "ids"), (H "vs_currencies") by in_literal.
      rewrite (entries_when_ext _ _ (opt_get a) (opt_get b));
        [reflexivity |].
      intros k Hk; apply H; right; right; exact Hk. }
    rewrite E; reflexivity.
  - rewrite (handleGetTokenPriceByAddress_run a log Na),
      (handleGetTokenPriceByAddress_run b log Nb).
    assert (E : token_params (opt_get a) = token_params (opt_get b)).
    { rewrite !token_params_flat; apply entries_when_ext.
      intros k Hk; apply H; right; right; exact Hk. }
    rewrite E, (H "chainId"), (H "tokenAddress") by in_literal.
    reflexivity.
Qed.

(* Resources *)

Lemma rethrowing_call_run {A : Type} (endpoint : string) (ps : option Obj)
  (ok : Js -> A) (prefix : string) (log : list Request) :
  try_catch (data <- callCoinGeckoAPI endpoint ps ;; ret (ok data))
            (fun error => throw (new_Error (prefix ++ error_toString error)))
            log
  = (match settle (net log (build_request endpoint ps)) with
     | Normal data => Normal (ok data)
     | Throw e => Throw (new_Error (prefix ++ error_toString e))
     end,
     (log ++ [build_request endpoint ps])%list).
Proof.
  unfold try_catch, bind; rewrite callCoinGeckoAPI_run.
  destruct (settle _); reflexivity.
Qed.

Lemma handleMarketStatusResource_run (log : list Request) :
  handleMarketStatusResource log
  = match settle (net log status_trending_request) with
    | Throw e =>
        (Throw (new_Error ("Failed to fetch market status: "
                             ++ error_toString e)),
         (log ++ [status_trending_request])%list)
    | Normal trendingData =>
        (match settle (net (log ++ [status_trending_request])%list
                         status_price_request) with
         | Throw e =>
             Throw (new_Error ("Failed to fetch market status: "
                                 ++ error_toString e))
         | Normal priceData =>
             match outcome (member trendingData "coins") [] with
             | Throw e =>
                 Throw (new_Error ("Failed to fetch market status: "
                                     ++ error_toString e))
             | Normal coins =>
                 Normal
                   (mkResourceResult
                      [mkResourceContent "coingecko://market/status"
                         "application/json"
                         (JSON_stringify
                            (market_status_document priceData
                               (js_or (opt_get coins "length") (JNum 0))))])
             end
         end,
         (log ++ [status_trending_request; status_price_request])%list)
    end.
Proof.
  unfold handleMarketStatusResource, try_catch, bind.
  rewrite callCoinGeckoAPI_run.
  fold status_trending_request.
  destruct (settle (net log status_trending_request)) as [t | e];
    [| reflexivity].
  rewrite callCoinGeckoAPI_run.
  fold status_price_request.
  rewrite <- app_assoc; cbn [app].
  destruct (settle _) as [p | e]; [| reflexivity].
  destruct t; reflexivity.
Qed.

(** Reading the trending or the new-listings resource fetches once and
    returns the upstream JSON itself, not an envelope.  A failure of the
    upstream call is not returned as data: it is thrown again as an [Error]
    whose message prefixes the text of the original error, so a 404 reads
    [Failed to fetch trending coins: Error: CoinGecko API error: 404 ...]. *)
Theorem feed_resources_rethrow (log : list Request) :
  let trending := read_resource_request "coingecko://trending/coins" in
  let fresh := read_resource_request "coingecko://new/coins" in
  let call_trending := callCoinGeckoAPI "/search/trending" None in
  let call_fresh := callCoinGeckoAPI "/coins/list/new" None in
  snd (trending log) = (log ++ [build_request "/search/trending" None])%list
  /\ snd (fresh log) = (log ++ [build_request "/coins/list/new" None])%list
  /\ (forall data,
         outcome call_trending log = Normal data ->
         outcome trending log
         = Normal (mkResourceResult
                     [mkResourceContent "coingecko://trending/coins"
                        "application/json" (JSON_stringify data)]))
  /\ (forall data,
         outcome call_fresh log = Normal data ->
         outcome fresh log
         = Normal (mkResourceResult
                     [mkResourceContent "coingecko://new/coins"
                        "application/json" (JSON_stringify data)]))
  /\ (forall e,
         outcome call_trending log = Throw e ->
         outcome trending log
         = Throw (ErrorObj "Error"
                    ("Failed to fetch trending coins: " ++ error_toString e)
                    stack_trace))
  /\ (forall e,
         outcome call_fresh log = Throw e ->
         outcome fresh log
         = Throw (ErrorObj "Error"
                    ("Failed to fetch new coins: " ++ error_toString e)
                    stack_trace))
  /\ (forall r,
         net log (build_request "/search/trending" None) = Responded r ->
         resp_status r = 404 ->
         outcome trending log
         = Throw (ErrorObj "Error"
                    ("Failed to fetch trending coins: Error: CoinGecko API error: 404 "
                       ++ resp_statusText r)
                    stack_trace)).
Proof.
  cbv zeta.
  change (read_resource_request "coingecko://trending/coins")
    with handleTrendingCoinsResource.
  change (read_resource_request "coingecko://new/coins")
    with handleNewCoinsResource.
  unfold outcome, handleTrendingCoinsResource, handleNewCoinsResource.
  rewrite !rethrowing_call_run, !callCoinGeckoAPI_run; cbn [fst snd].
  repeat match goal with |- _ /\ _ => split end; try reflexivity;
    try (intros x ->; reflexivity).
  intros r Hr H404; rewrite Hr, (settle_404 r H404); reflexivity.
Qed.

(** The market-status resource fetches in sequence.  When the trending
    call fails the read fails after that single fetch and the price request
    is never issued; otherwise exactly two requests go out, trending first,
    then the prices of bitcoin and ethereum in usd with market cap, volume
    and change switched on. *)
Theorem market_status_fetch_sequence (log : list Request) :
  let status := read_resource_request "coingecko://market/status" in
  let first := callCoinGeckoAPI "/search/trending" None in
  (forall e,
      outcome first log = Throw e ->
      status log
      = (Throw (ErrorObj "Error"
                  ("Failed to fetch market status: " ++ error_toString e)
                  stack_trace),
         (log ++ [build_request "/search/trending" None])%list))
  /\ (forall trendingData,
         outcome first log = Normal trendingData ->
         snd (status log)
         = (log ++ [build_request "/search/trending" None;
                    mkRequest
                      (mkUrl (COINGECKO_BASE_URL ++ "/simple/price")
                         [("ids", "bitcoin,ethereum");
                          ("vs_currencies", "usd");
                          ("include_market_cap", "true");
                          ("include_24hr_vol", "true");
                          ("include_24hr_change", "true")])
                      request_headers])%list)
  /\ (fetches status log = 1 \/ fetches status log = 2)%nat.
Proof.
  cbv zeta.
  change (read_resource_request "coingecko://market/status")
    with handleMarketStatusResource.
  unfold outcome, fetches; rewrite callCoinGeckoAPI_run; cbn [fst].
  rewrite handleMarketStatusResource_run.
  fold status_trending_request.
  split; [intros e ->; reflexivity |].
  split; [intros t ->; reflexivity |].
  destruct (settle (net log status_trending_request)); cbn [snd];
    rewrite length_app; simpl; [right | left]; lia.
Qed.

(** The document of the market-status resource, once both calls have
    returned: [topCoins] is the price payload as received and
    [trendingCount] is the length of the trending payload's [coins] array,
    0 when [coins] is missing or [null].  A trending payload that is
    [null] makes the read fail, after both fetches. *)
Theorem market_status_trending_count
  (trendingData priceData : Js) (log : list Request) :
  let status := read_resource_request "coingecko://market/status" in
  let document count :=
    Normal (mkResourceResult
              [mkResourceContent "coingecko://market/status"
                 "application/json"
                 (JSON_stringify
                    (JObj [("status", JStr "active");
                           ("timestamp", JStr now);
                           ("topCoins", priceData);
                           ("trendingCount", count);
                           ("summary",
                            JStr "Live crypto market data from CoinGecko")]))])
  in
  outcome (callCoinGeckoAPI "/search/trending" None) log
  = Normal trendingData ->
  outcome (callCoinGeckoAPI "/simple/price"
             (Some [("ids", JStr "bitcoin,ethereum");
                    ("vs_currencies", JStr "usd");
                    ("include_market_cap", JStr "true");
                    ("include_24hr_vol", JStr "true");
                    ("include_24hr_change", JStr "true")]))
    (log ++ [build_request "/search/trending" None])%list
  = Normal priceData ->
  (forall fields coins,
      trendingData = JObj fields -> obj_get fields "coins" = JArr coins ->
      outcome status log
      = document (JNum (Z.of_nat (List.length coins))))
  /\ (forall fields,
         trendingData = JObj fields ->
         nullish (obj_get fields "coins") = true ->
         outcome status log = document (JNum 0))
  /\ (nullish trendingData = true ->
      exists text,
        outcome status log
        = Throw (ErrorObj "Error"
                   ("Failed to fetch market status: " ++ text) stack_trace)).
Proof.
  cbv zeta.
  change (read_resource_request "coingecko://market/status")
    with handleMarketStatusResource.
  unfold outcome; rewrite !callCoinGeckoAPI_run; cbn [fst].
  rewrite handleMarketStatusResource_run.
  fold status_trending_request status_price_request.
  intros -> ->; cbn [fst].
  split; [| split].
  - intros fields coins -> Hc; cbn [outcome member fst ret opt_get].
    rewrite Hc; cbn [opt_get String.eqb Ascii.eqb Bool.eqb].
    destruct coins; reflexivity.
  - intros fields -> Hc; cbn [outcome member fst ret opt_get].
    destruct (obj_get fields "coins"); simpl in Hc; try discriminate;
      reflexivity.
  - intros N; destruct trendingData; simpl in N; try discriminate;
      eexists; reflexivity.
Qed.

(** A resource read that succeeds returns exactly one content item, whose
    [uri] is the URI that was asked for and whose [mimeType] is the one the
    resource list declares for it. *)
Theorem resource_read_returns_requested_uri
  (u : string) (log : list Request) (r : ResourceResult) :
  outcome (read_resource_request u) log = Normal r ->
  exists mime text,
    contents r = [mkResourceContent u mime text]
    /\ In (u, mime) getResources.
Proof.
  unfold read_resource_request, outcome.
  destruct (String.eqb_spec u "coingecko://market/status") as [-> | _].
  { rewrite handleMarketStatusResource_run.
    destruct (settle _); [| discriminate].
    cbn [fst]; destruct (settle _); [| discriminate].
    destruct (outcome _ _); [| discriminate].
    intros H; inversion H; subst; do 2 eexists; split;
      [reflexivity | in_literal]. }
  destruct (String.eqb_spec u "coingecko://trending/coins") as [-> | _].
  { unfold handleTrendingCoinsResource; rewrite rethrowing_call_run.
    cbn [fst]; destruct (settle _); [| discriminate].
    intros H; inversion H; subst; do 2 eexists; split;
      [reflexivity | in_literal]. }
  destruct (String.eqb_spec u "coingecko://new/coins") as [-> | _].
  { unfold handleNewCoinsResource; rewrite rethrowing_call_run.
    cbn [fst]; destruct (settle _); [| discriminate].
    intros H; inversion H; subst; do 2 eexists; split;
      [reflexivity | in_literal]. }
  destruct (String.eqb_spec u "coingecko://api/info") as [-> | _].
  { intros H; inversion H; subst; do 2 eexists; split;
      [reflexivity | in_literal]. }
  discriminate.
Qed.

(* Prompts *)

(** The get-prompt request handler never touches the network.  It throws
    in two cases only: a name outside the three prompt names, and
    [token_research] without an address; [market_analysis] does not read
    its arguments. *)
Theorem prompts_never_fetch (name : string) (args : Js) (log : list Request) :
  snd (get_prompt_request name args log) = log
  /\ ((exists e, outcome (get_prompt_request name args) log = Throw e)
      <-> ~ In name prompt_names
          \/ (name = "token_research"
              /\ truthy (opt_get args "address") = false))
  /\ (~ In name prompt_names ->
      outcome (get_prompt_request name args) log
      = Throw (ErrorObj "Error" ("Unknown prompt: " ++ name) stack_trace))
  /\ (forall other,
         get_prompt_request "market_analysis" args log
         = get_prompt_request "market_analysis" other log).
Proof using stack_trace.
  clear env net now PAYMENT_CONFIG.
  unfold get_prompt_request, outcome.
  destruct (String.eqb_spec name "crypto_price_check") as [-> | N1].
  { repeat split; try reflexivity.
    - intros [e H]; discriminate.
    - intros [H | [H _]]; [exfalso; apply H; in_literal | discriminate].
    - intros H; exfalso; apply H; in_literal. }
  destruct (String.eqb_spec name "market_analysis") as [-> | N2].
  { repeat split; try reflexivity.
    - intros [e H]; discriminate.
    - intros [H | [H _]]; [exfalso; apply H; in_literal | discriminate].
    - intros H; exfalso; apply H; in_literal. }
  destruct (String.eqb_spec name "token_research") as [-> | N3].
  { unfold handleTokenResearchPrompt.
    destruct (truthy (opt_get args "address")) eqn:E; cbn [negb];
      repeat split; try reflexivity.
    - intros [e H]; discriminate.
    - intros [H | [_ H]]; [exfalso; apply H; in_literal | discriminate].
    - intros H; exfalso; apply H; in_literal.
    - intros _; right; split; reflexivity.
    - intros _; eexists; reflexivity.
    - intros H; exfalso; apply H; in_literal. }
  repeat split; try reflexivity.
  - intros _; left; simpl; intuition congruence.
  - intros _; eexists; reflexivity.
Qed.

(* Descriptors *)

Lemma gate_enabled_is_configured : gate_enabled = isPaymentConfigured.
Proof using env PAYMENT_CONFIG.
  clear net stack_trace now.
  unfold gate_enabled, isPaymentConfigured, app, facilitatorUrl, payTo.
  destruct (truthy (js_and getFacilitatorUrl getPaymentAddress));
    reflexivity.
Qed.

(** The two descriptor routes report the payment state the application
    really has.  [paymentEnabled] is true exactly when the payment
    middleware is installed; without it [pricing] and [paymentNetwork] are
    [null]; with it every price shown is the price of the rule that the
    middleware's route table attaches to that entry, and the network shown
    is the fixed text [base-sepolia]. *)
Theorem descriptors_report_payment_state (req : HttpRequest) :
  let root := http_body (route_root req) in
  let info := http_body (route_info req) in
  http_status (route_root req) = 200
  /\ http_status (route_info req) = 200
  /\ opt_get root "paymentEnabled" = JBool gate_enabled
  /\ opt_get info "paymentEnabled" = JBool gate_enabled
  /\ (gate_enabled = false ->
      opt_get root "pricing" = JNull
      /\ opt_get info "pricing" = JNull
      /\ opt_get info "paymentNetwork" = JNull)
  /\ (gate_enabled = true ->
      opt_get info "paymentNetwork" = JStr "base-sepolia"
      /\ opt_get (opt_get root "pricing") "network" = JStr "base-sepolia"
      /\ forall entry key,
           In (entry, key) priced_entries ->
           exists rule,
             payment_rule key = Some rule
             /\ opt_get (opt_get root "pricing") entry = JStr (price rule)
             /\ (entry = "jsonRpc" ->
                 opt_get (opt_get info "pricing") entry = JStr (price rule))
             /\ (entry <> "jsonRpc" ->
                 opt_get (opt_get (opt_get info "pricing") "tools") entry
                 = JStr (price rule))).
Proof using env PAYMENT_CONFIG.
  clear net stack_trace now.
  cbv zeta; rewrite gate_enabled_is_configured.
  unfold route_root, route_info, res_json; cbn [http_status http_body].
  split; [reflexivity |].
  split; [reflexivity |].
  split; [reflexivity |].
  split; [reflexivity |].
  split; intros E.
  - cbn [opt_get obj_get String.eqb Ascii.eqb Bool.eqb]; rewrite E.
    repeat split.
  - cbn [opt_get obj_get String.eqb Ascii.eqb Bool.eqb]; rewrite E.
    split; [reflexivity |].
    split; [reflexivity |].
    intros entry key Hin; simpl in Hin.
    destruct Hin as [H | [H | [H | [H | [H | []]]]]];
      inversion H; subst; clear H;
      eexists; (split; [reflexivity |]);
      (split; [reflexivity |]);
      (split; [intros H; first [reflexivity | discriminate]
              | intros H; first [reflexivity | congruence]]).
Qed.

Lemma message_differs {A : Type} (a b : string) (s1 s2 : string) :
  a <> b ->
  @Throw A (ErrorObj "Error" a s1) <> Throw (ErrorObj "Error" b s2).
Proof.
  intros H E; inversion E; contradiction.
Qed.

(** The lists the root descriptor advertises are the lists the dispatch
    switches serve.  A name is among the advertised tools exactly when the
    tool-call handler answers it with a JSON envelope; a name is among the
    advertised prompts, and a URI among the advertised resources, exactly
    when the handler does not reject it as unknown.  The same names appear
    in [getTools], [getPrompts] and [getResources]. *)
Theorem advertised_names_are_dispatched
  (req : HttpRequest) (name u : string) (args : Js) (log : list Request) :
  let capabilities := opt_get (http_body (route_root req)) "capabilities" in
  strings_of (opt_get capabilities "tools") = map fst getTools
  /\ strings_of (opt_get capabilities "prompts") = map fst getPrompts
  /\ strings_of (opt_get capabilities "resources") = map fst getResources
  /\ map fst getResources = resource_uris
  /\ (In name (strings_of (opt_get capabilities "tools"))
      <-> exists v,
            outcome (call_tool_request name args) log
            = Normal (text_result (JSON_stringify v)))
  /\ (In name (strings_of (opt_get capabilities "prompts"))
      <-> outcome (get_prompt_request name args) log
          <> Throw (ErrorObj "Error" ("Unknown prompt: " ++ name)
                      stack_trace))
  /\ (In u (strings_of (opt_get capabilities "resources"))
      <-> outcome (read_resource_request u) log
          <> Throw (ErrorObj "Error" ("Unknown resource: " ++ u)
                      stack_trace)).
Proof.
  cbv zeta.
  change (strings_of
            (opt_get (opt_get (http_body (route_root req)) "capabilities")
               "tools")) with tool_names.
  change (strings_of
            (opt_get (opt_get (http_body (route_root req)) "capabilities")
               "prompts")) with prompt_names.
  change (strings_of
            (opt_get (opt_get (http_body (route_root req)) "capabilities")
               "resources")) with resource_uris.
  split; [reflexivity |].
  split; [reflexivity |].
  split; [reflexivity |].
  split; [reflexivity |].
  split; [| split].
  - unfold call_tool_request, outcome.
    destruct (String.eqb_spec name "get_simple_price") as [-> | N1].
    { split; [intros _ | intros _; in_literal].
      destruct (nullish args) eqn:N.
      - destruct (handleGetSimplePrice_nullish args log N) as [e ->].
        eexists; reflexivity.
      - rewrite (handleGetSimplePrice_run args log N); eexists; reflexivity. }
    destruct (String.eqb_spec name "get_trending_coins") as [-> | N2].
    { split; [intros _ | intros _; in_literal].
      rewrite handleGetTrendingCoins_run; eexists; reflexivity. }
    destruct (String.eqb_spec name "get_new_coins") as [-> | N3].
    { split; [intros _ | intros _; in_literal].
      rewrite handleGetNewCoins_run; eexists; reflexivity. }
    destruct (String.eqb_spec name "get_token_price_by_address")
      as [-> | N4].
    { split; [intros _ | intros _; in_literal].
      destruct (nullish args) eqn:N.
      - destruct (handleGetTokenPriceByAddress_nullish args log N)
          as [e ->].
        eexists; reflexivity.
      - rewrite (handleGetTokenPriceByAddress_run args log N).
        eexists; reflexivity. }
    split; [simpl; intuition congruence | intros [v H]; discriminate].
  - unfold get_prompt_request, outcome.
    destruct (String.eqb_spec name "crypto_price_check") as [-> | N1].
    { split; [intros _; discriminate | intros _; in_literal]. }
    destruct (String.eqb_spec name "market_analysis") as [-> | N2].
    { split; [intros _; discriminate | intros _; in_literal]. }
    destruct (String.eqb_spec name "token_research") as [-> | N3].
    { split; [intros _ | intros _; in_literal].
      unfold handleTokenResearchPrompt.
      destruct (negb (truthy (opt_get args "address")));
        unfold throw, new_Error; cbn [fst];
        [apply message_differs |]; discriminate. }
    split; [simpl; intuition congruence |].
    intros H; exfalso; apply H; reflexivity.
  - unfold read_resource_request, outcome.
    destruct (String.eqb_spec u "coingecko://market/status") as [-> | N1].
    { split; [intros _ | intros _; in_literal].
      rewrite handleMarketStatusResource_run; unfold new_Error.
      destruct (settle _); cbn [fst];
        [| apply message_differs; discriminate].
      destruct (settle _); [| apply message_differs; discriminate].
      destruct (outcome _ _);
        [discriminate | apply message_differs; discriminate]. }
    destruct (String.eqb_spec u "coingecko://trending/coins") as [-> | N2].
    { split; [intros _ | intros _; in_literal].
      unfold handleTrendingCoinsResource; rewrite rethrowing_call_run.
      unfold new_Error; cbn [fst]; destruct (settle _);
        [discriminate | apply message_differs; discriminate]. }
    destruct (String.eqb_spec u "coingecko://new/coins") as [-> | N3].
    { split; [intros _ | intros _; in_literal].
      unfold handleNewCoinsResource; rewrite rethrowing_call_run.
      unfold new_Error; cbn [fst]; destruct (settle _);
        [discriminate | apply message_differs; discriminate]. }
    destruct (String.eqb_spec u "coingecko://api/info") as [-> | N4].
    { split; [intros _; discriminate | intros _; in_literal]. }
    split; [simpl; intuition congruence |].
    intros H; exfalso; apply H; reflexivity.
Qed.

(* Upstream client *)

(** For the upstream client a query map whose every value is [undefined],
    [null] or empty is the same as no query map: the same request goes out
    and the same result comes back. *)
Theorem absent_only_map_is_no_map
  (endpoint : string) (entries : Obj) (log : list Request) :
  (forall k v, In (k, v) entries -> absent v) ->
  callCoinGeckoAPI endpoint (Some entries) log
  = callCoinGeckoAPI endpoint None log.
Proof.
  intros H; rewrite !callCoinGeckoAPI_run.
  assert (E : build_request endpoint (Some entries)
              = build_request endpoint None).
  { unfold build_request, build_url; do 2 f_equal.
    induction entries as [| [k v] rest IH]; [reflexivity |].
    simpl; rewrite (keep_entry_absent k v (H k v (or_introl eq_refl))).
    apply IH; intros k' v' Hin; apply (H k' v'); right; exact Hin. }
  rewrite E; reflexivity.
Qed.

(** A 2xx answer whose body cannot be parsed is a failure, not a success:
    the upstream client throws what [response.json()] threw, the HTTP route
    answers 500 and the tool handler returns the failure envelope, both
    with the parser's message.  (Stated for query maps and query values
    that can be stringified, so that the request goes out at all.) *)
Theorem unparsable_success_is_failure
  (r : Response) (e : Thrown) (log : list Request) :
  (forall rq, net log rq = Responded r) ->
  200 <= resp_status r <= 299 ->
  resp_json r = inl e ->
  (forall endpoint ps,
      stringable_map ps ->
      outcome (callCoinGeckoAPI endpoint ps) log = Throw e)
  /\ (forall req,
         outcome (route_search_trending req) log
         = Normal (mkHttpResponse 500
                     (JObj [("error", JStr "Failed to fetch trending coins");
                            ("message", JStr (error_message e))])))
  /\ (forall req,
         truthy (obj_get (query req) "ids") = true ->
         truthy (obj_get (query req) "vs_currencies") = true ->
         stringable_inputs (obj_get (query req)) price_input_names ->
         outcome (route_simple_price req) log
         = Normal (mkHttpResponse 500
                     (JObj [("error", JStr "Failed to fetch price data");
                            ("message", JStr (error_message e))])))
  /\ (forall args,
         outcome (handleGetTrendingCoins args) log
         = Normal (text_result
                     (JSON_stringify
                        (JObj [("error",
                                JStr "Failed to fetch trending coins");
                               ("message", JStr (error_message e))]))))
  /\ outcome (read_resource_request "coingecko://new/coins") log
     = Throw (ErrorObj "Error"
                ("Failed to fetch new coins: " ++ error_toString e)
                stack_trace).
Proof.
  intros Hnet Hs Hj.
  assert (S : forall rq, settle (net log rq) = Throw e).
  { intros rq; rewrite Hnet; unfold settle.
    rewrite (proj2 (resp_ok_2xx r) Hs), Hj; reflexivity. }
  unfold outcome.
  split; [intros endpoint ps _; rewrite callCoinGeckoAPI_run, S;
          reflexivity |].
  split; [intros req; rewrite route_search_trending_run; cbv zeta;
          rewrite S; reflexivity |].
  split.
  { intros req Hi Hv _; rewrite route_simple_price_run, Hi, Hv; cbv zeta.
    cbn [negb orb]; rewrite S; reflexivity. }
  split; [intros args; rewrite handleGetTrendingCoins_run; cbv zeta;
          rewrite S; reflexivity |].
  change (read_resource_request "coingecko://new/coins")
    with handleNewCoinsResource.
  unfold handleNewCoinsResource; rewrite rethrowing_call_run, S.
  reflexivity.
Qed.

(* Facade and application *)

(** The facade validates nothing and never throws: each of its four
    methods resolves to a text-block result and, given inputs that can be
    stringified (its parameters are typed as texts, booleans and a number),
    sends exactly one request whatever they are.  For token-by-address the
    request path is built from the inputs as they are, so a missing
    [chainId] is sent as the path segment [undefined]. *)
Theorem facade_always_fetches_once
  (a b c d e f g h : Js) (log : list Request) :
  Forall (fun v => stringable v = true) [a; b; c; d; e; f; g; h] ->
  fetches (getSimplePrice a b c d e f g) log = 1%nat
  /\ fetches getTrendingCoins log = 1%nat
  /\ fetches getNewCoins log = 1%nat
  /\ fetches (getTokenPriceByAddress a b c d e f g h) log = 1%nat
  /\ (exists t,
         outcome (getSimplePrice a b c d e f g) log = Normal (text_result t))
  /\ (exists t, outcome getTrendingCoins log = Normal (text_result t))
  /\ (exists t, outcome getNewCoins log = Normal (text_result t))
  /\ (exists t,
         outcome (getTokenPriceByAddress a b c d e f g h) log
         = Normal (text_result t))
  /\ (exists sent,
         snd (getTokenPriceByAddress a b c d e f g h log)
         = (log ++ [mkRequest
                      (mkUrl (COINGECKO_BASE_URL ++ "/coins/" ++ js_String a
                                ++ "/contract/" ++ js_String b) sent)
                      request_headers])%list)
  /\ (exists sent,
         snd (getTokenPriceByAddress JUndefined b c d e f g h log)
         = (log ++ [mkRequest
                      (mkUrl (COINGECKO_BASE_URL ++ "/coins/undefined/contract/"
                                ++ js_String b) sent)
                      request_headers])%list).
Proof.
  intros _; unfold fetches, outcome.
  change (getTokenPriceByAddress JUndefined b c d e f g h)
    with (handleGetTokenPriceByAddress
            (JObj [("chainId", JUndefined); ("tokenAddress", b);
                   ("localization", c); ("tickers", d);
                   ("market_data", e); ("community_data", f);
                   ("developer_data", g); ("sparkline", h)])).
  change (getSimplePrice a b c d e f g)
    with (handleGetSimplePrice
            (JObj [("ids", a); ("vs_currencies", b);
                   ("include_market_cap", c); ("include_24hr_vol", d);
                   ("include_24hr_change", e);
                   ("include_last_updated_at", f); ("precision", g)])).
  change getTrendingCoins with (handleGetTrendingCoins (JObj [])).
  change getNewCoins with (handleGetNewCoins (JObj [])).
  change (getTokenPriceByAddress a b c d e f g h)
    with (handleGetTokenPriceByAddress
            (JObj [("chainId", a); ("tokenAddress", b);
                   ("localization", c); ("tickers", d);
                   ("market_data", e); ("community_data", f);
                   ("developer_data", g); ("sparkline", h)])).
  rewrite handleGetSimplePrice_run, handleGetTrendingCoins_run,
    handleGetNewCoins_run, !handleGetTokenPriceByAddress_run
    by reflexivity.
  cbv zeta; cbn [fst snd].
  rewrite !length_app_one.
  repeat match goal with |- _ /\ _ => split end; try reflexivity;
    try (eexists; reflexivity).
Qed.

(** The order of the application's layers.  Every router is reached
    through CORS and JSON body parsing, in that order, and never through
    the error handler, which is registered last.  When the payment gate is
    enabled its middleware is ahead of every router, the descriptor router
    included; every key of its route table is a GET under [/mcp], so the
    table has no entry for the descriptor paths. *)
Theorem middleware_order (r : RouterId) :
  (exists rest, layers_ahead_of r app = Cors :: ExpressJson :: rest)
  /\ ~ In ErrorHandlerLayer (layers_ahead_of r app)
  /\ last app Cors = ErrorHandlerLayer
  /\ (gate_enabled = true ->
      In (PaymentMiddleware payTo payment_routes facilitatorUrl)
        (layers_ahead_of r app))
  /\ (gate_enabled = false ->
      existsb is_payment_layer (layers_ahead_of r app) = false)
  /\ (forall key rule,
         In (key, rule) payment_routes ->
         String.prefix "GET /mcp" key = true)
  /\ (forall path,
         In path ["/"; "/health"; "/info"] ->
         payment_rule ("GET " ++ path) = None).
Proof using env PAYMENT_CONFIG.
  clear net stack_trace now.
  unfold gate_enabled, app.
  destruct (truthy (js_and facilitatorUrl payTo)); destruct r; cbn;
    repeat match goal with |- _ /\ _ => split end;
    try (eexists; reflexivity); try reflexivity; try discriminate;
    try (intros H; intuition discriminate);
    try (intros _; auto 10);
    try (intros key rule H;
         repeat (destruct H as [H | H];
                 [inversion H; reflexivity |]); destruct H);
    try (intros path H;
         repeat (destruct H as [<- | H]; [reflexivity |]); destruct H).
Qed.

End Program.

(* ================================================================== *)
(** ** Closed instances *)

(** C1, at [GET /simple/price?vs_currencies=usd] and at a request with no
    path parameters: both are refused and nothing is fetched. *)
Lemma C1_http_validation_witness :
  fetches (route_simple_price sample_env net_ok sample_stack
             request_without_ids) [] = 0%nat
  /\ fetches (route_token_by_address sample_env net_ok sample_stack
                request_without_ids) [] = 0%nat.
Proof.
  destruct (C1_http_validation_without_fetch sample_env net_ok sample_stack
              request_without_ids []) as [Hp Ht].
  split.
  - apply Hp; left; left; reflexivity.
  - apply Ht; left; left; reflexivity.
Defined.

(** C1 as stated fails on the tool surface: without [ids] the price tool
    handler still calls upstream. *)
Lemma C1_tool_handler_fetches_without_ids :
  ~ (forall env net stack_trace args log,
        absent (opt_get args "ids") ->
        fetches (handleGetSimplePrice env net stack_trace args) log = 0%nat).
Proof.
  intros H.
  specialize (H sample_env net_ok sample_stack
                (JObj [("vs_currencies", JStr "usd")]) []
                (or_introl eq_refl)).
  vm_compute in H; discriminate.
Qed.

(** C2, at [ids=bitcoin,ethereum&vs_currencies=usd]: route and tool
    handler agree. *)
Lemma C2_surfaces_agree_witness :
  same_behaviour
    (route_simple_price sample_env net_ok sample_stack request_prices)
    (call_tool_request sample_env net_ok sample_stack "get_simple_price"
       (JObj (query request_prices)))
    [].
Proof.
  destruct (C2_surfaces_agree sample_env net_ok sample_stack [])
    as [_ [_ [_ [_ [_ [_ [Hp _]]]]]]].
  apply (Hp (query request_prices) []); try reflexivity.
  intros k Hk; left.
  simpl in Hk.
  repeat (destruct Hk as [<- | Hk]; [reflexivity |]); destruct Hk.
Defined.

(** C2 as stated fails: without [ids] the route answers 400 and fetches
    nothing while the tool handler calls upstream. *)
Lemma C2_route_and_tool_differ_without_ids :
  ~ (forall env net stack_trace fields log,
        same_behaviour
          (route_simple_price env net stack_trace (mkHttpRequest fields []))
          (handleGetSimplePrice env net stack_trace (JObj fields))
          log).
Proof.
  intros H.
  destruct (H sample_env net_ok sample_stack
              [("vs_currencies", JStr "usd")] []) as [Hlog _].
  vm_compute in Hlog; discriminate.
Qed.

(** C3, for the price route at [ids=bitcoin,ethereum&vs_currencies=usd]. *)
Lemma C3_envelope_shapes_witness :
  envelope_law
    (http_envelope
       (outcome (route_simple_price sample_env net_ok sample_stack
                   request_prices) []))
    (outcome (callCoinGeckoAPI sample_env net_ok sample_stack "/simple/price"
                (Some (http_price_params (query request_prices)))) [])
    "Failed to fetch price data"
    (fun data => JObj [("success", JBool true); ("data", data);
                       ("parameters",
                        JObj (http_price_params (query request_prices)))]).
Proof.
  destruct (C3_envelope_shapes sample_env net_ok sample_stack request_prices
              (JObj []) []) as [Hp _].
  apply Hp; reflexivity.
Defined.

(** C3 as stated fails: the success envelope of trending has no
    [parameters] field. *)
Lemma C3_trending_envelope_has_no_parameters :
  ~ (forall env net stack_trace req log data,
        outcome (callCoinGeckoAPI env net stack_trace "/search/trending" None)
          log = Normal data ->
        exists parameters,
          http_envelope
            (outcome (route_search_trending env net stack_trace req) log)
          = Some (JObj [("success", JBool true); ("data", data);
                        ("parameters", parameters)])).
Proof.
  intros H.
  destruct (H sample_env net_ok sample_stack request_prices [] sample_prices
              eq_refl) as [parameters Hp].
  vm_compute in Hp; discriminate.
Qed.

(** C4, on a query map holding each kind of value. *)
Lemma C4_query_entries_witness :
  url_searchParams
    (build_url "/simple/price"
       (Some [("ids", JStr "bitcoin");
              ("vs_currencies", JStr EmptyString);
              ("include_market_cap", JBool true);
              ("include_24hr_vol", JUndefined);
              ("include_24hr_change", JNull);
              ("precision", JNum 2)]))
  = [("ids", "bitcoin"); ("include_market_cap", "true"); ("precision", "2")].
Proof.
  destruct (C4_query_entries_filtered sample_env net_ok sample_stack
              "/simple/price" [])
    as [_ [_ [Hnil [Hskip [Hkeep [Hbool [Hnum _]]]]]]].
  cbv zeta in Hnil, Hskip, Hkeep, Hbool, Hnum.
  rewrite Hkeep;
    [| intros [H | [H | H]]; discriminate | reflexivity].
  rewrite Hskip by (right; right; reflexivity).
  rewrite Hbool.
  rewrite Hskip by (left; reflexivity).
  rewrite Hskip by (right; left; reflexivity).
  rewrite Hkeep;
    [| intros [H | [H | H]]; discriminate | reflexivity].
  rewrite Hnil; reflexivity.
Defined.

(** C5, against a network that answers 404 Not Found. *)
Lemma C5_status_404_witness :
  route_search_trending sample_env net_404 sample_stack request_prices []
  = (Normal (mkHttpResponse 500
               (JObj [("error", JStr "Failed to fetch trending coins");
                      ("message",
                       JStr "CoinGecko API error: 404 Not Found")])),
     [build_request sample_env "/search/trending" None])
  /\ fetches (route_simple_price sample_env net_404 sample_stack
                request_prices) [] = 1%nat.
Proof.
  destruct (C5_status_and_single_fetch sample_env net_404 sample_stack
              "/search/trending" None [])
    as [_ [_ [_ [_ [_ [_ [_ H404]]]]]]].
  cbv zeta in H404.
  destruct (H404 (mkResponse 404 "Not Found" (inr (JObj [])))
              (fun _ => eq_refl) eq_refl) as [Hprice [Htrend _]].
  split.
  - destruct (Htrend request_prices) as [_ Hout].
    unfold outcome in Hout.
    destruct (route_search_trending sample_env net_404 sample_stack
                request_prices []) as [c l] eqn:E.
    simpl in Hout; subst c.
    vm_compute in E; injection E as <-; reflexivity.
  - assert (S : stringable_inputs (obj_get (query request_prices))
                  price_input_names).
    { intros k Hk; simpl in Hk.
      repeat (destruct Hk as [<- | Hk]; [reflexivity |]); destruct Hk. }
    destruct (Hprice request_prices eq_refl eq_refl S) as [Hone _].
    exact Hone.
Defined.

(** C6, at [GET /simple/price?vs_currencies=usd]. *)
Lemma C6_http_status_witness :
  outcome (route_simple_price sample_env net_ok sample_stack
             request_without_ids) []
  = Normal (mkHttpResponse 400
              (JObj [("error", JStr "Missing required parameters");
                     ("required", JArr [JStr "ids"; JStr "vs_currencies"]);
                     ("message",
                      JStr "Both 'ids' and 'vs_currencies' are required parameters")])).
Proof.
  destruct (C6_http_status_mapping sample_env net_ok sample_stack
              request_without_ids []) as [H400 _].
  apply H400; left; left; reflexivity.
Defined.

(** C7, with both values configured and with none. *)
Lemma C7_payment_gate_witness :
  gate_enabled paid_env sample_config = true
  /\ gate_enabled sample_env sample_config = false.
Proof.
  destruct (C7_payment_gate_two_states paid_env sample_config)
    as [[_ Hon] _].
  destruct (C7_payment_gate_two_states sample_env sample_config)
    as [_ [_ [Hcfg _]]].
  split.
  - apply Hon.
    exists "https://x402.org/facilitator", "0xPayout".
    repeat split; discriminate.
  - rewrite Hcfg; reflexivity.
Defined.

(** C8, at a tool name and a resource URI that do not exist. *)
Lemma C8_unknown_name_witness :
  call_tool_request sample_env net_ok sample_stack "get_coin_history"
    (JObj []) []
  = (Normal (mkToolResult
               [mkContentBlock "text"
                  (Lit "Error: Unknown tool get_coin_history")]),
     [])
  /\ read_resource_request sample_env net_ok sample_stack sample_clock
       "coingecko://market/history" []
     = (Throw (ErrorObj "Error" "Unknown resource: coingecko://market/history"
                 sample_stack),
        []).
Proof.
  apply (C8_unknown_name_and_uri sample_env net_ok sample_stack sample_clock
           "get_coin_history" "coingecko://market/history" (JObj []) []).
  - simpl; intros [H | [H | [H | [H | []]]]]; discriminate.
  - simpl; intros [H | [H | [H | [H | []]]]]; discriminate.
Defined.



(** C10, with no address, and with an address but no chain. *)
Lemma C10_prompt_defaults_witness :
  get_prompt_request sample_stack "token_research"
    (JObj [("chain", JStr "base")]) []
  = (Throw (ErrorObj "Error" "Token address is required for token research"
              sample_stack),
     [])
  /\ get_prompt_request sample_stack "token_research"
       (JObj [("address", JStr "0xABC")]) []
     = (Normal (user_prompt
                  "Please research the token at address 0xABC on ethereum blockchain. Use the get_token_price_by_address tool with market_data=true to get comprehensive information including price, market cap, volume, and other key metrics."),
        []).
Proof.
  destruct (C10_prompt_argument_defaults sample_stack
              (JObj [("chain", JStr "base")]) [])
    as [_ [_ [Hthrow _]]].
  destruct (C10_prompt_argument_defaults sample_stack
              (JObj [("address", JStr "0xABC")]) [])
    as [_ [_ [_ [_ Hdefault]]]].
  split.
  - apply Hthrow; left; reflexivity.
  - apply Hdefault; [left |]; reflexivity.
Defined.

(* ================================================================== *)
(** ** Scenarios *)

(** [GET /simple/price?ids=bitcoin,ethereum&vs_currencies=usd] against an
    upstream that returns the two prices. *)
Example price_lookup_scenario :
  route_simple_price sample_env net_ok sample_stack request_prices []
  = (Normal (mkHttpResponse 200
               (JObj [("success", JBool true);
                      ("data", sample_prices);
                      ("parameters",
                       JObj [("ids", JStr "bitcoin,ethereum");
                             ("vs_currencies", JStr "usd")])])),
     [mkRequest
        (mkUrl "https://api.coingecko.com/api/v3/simple/price"
           [("ids", "bitcoin,ethereum"); ("vs_currencies", "usd")])
        [("Accept", "application/json"); ("x-cg-demo-api-key", "CG-demo")]]).
Proof. reflexivity. Qed.

(** The price tool handler turns a [null] option into the text ["null"],
    which the upstream client then sends. *)
Example tool_null_option_scenario :
  snd (handleGetSimplePrice sample_env net_ok sample_stack
         (JObj [("ids", JStr "bitcoin"); ("vs_currencies", JStr "usd");
                ("include_market_cap", JNull)]) [])
  = [mkRequest
       (mkUrl "https://api.coingecko.com/api/v3/simple/price"
          [("ids", "bitcoin"); ("vs_currencies", "usd");
           ("include_market_cap", "null")])
       [("Accept", "application/json"); ("x-cg-demo-api-key", "CG-demo")]].
Proof. reflexivity. Qed.

(** A transport failure reaches the client of the price route as a 500
    whose message is the error's message, not its stack. *)
Example transport_failure_scenario :
  outcome (route_simple_price sample_env net_down sample_stack request_prices)
    []
  = Normal (mkHttpResponse 500
              (JObj [("error", JStr "Failed to fetch price data");
                     ("message", JStr "fetch failed")])).
Proof. reflexivity. Qed.

(** Reading the market-status resource fetches twice: trending, then the
    prices of bitcoin and ethereum. *)
Example market_status_scenario :
  map (fun rq => url_href (req_url rq))
    (snd (read_resource_request sample_env net_ok sample_stack sample_clock
            "coingecko://market/status" []))
  = ["https://api.coingecko.com/api/v3/search/trending";
     "https://api.coingecko.com/api/v3/simple/price"].
Proof. reflexivity. Qed.

(* ================================================================== *)
(** ** Closed instances of the further properties *)

(** A tool call without an arguments object. *)
Lemma tool_call_without_arguments_witness :
  fetches (handleGetSimplePrice sample_env net_ok sample_stack JUndefined) []
  = 0%nat.
Proof.
  destruct (tool_call_without_arguments sample_env net_ok sample_stack
              JUndefined [] eq_refl) as [[message H] _].
  unfold fetches; rewrite H; reflexivity.
Defined.

(** [callTool] on a name that is not a tool. *)
Lemma callTool_unknown_witness :
  callTool sample_env net_ok sample_stack "get_coin_history" (JObj []) []
  = (Throw (ErrorObj "Error" "Unknown tool: get_coin_history" sample_stack),
     []).
Proof.
  destruct (callTool_unknown_throws sample_env net_ok sample_stack
              "get_coin_history" (JObj []) []) as [_ H].
  apply H; simpl; intros [E | [E | [E | [E | []]]]]; discriminate.
Defined.

(** [GET /simple/price?ids=bitcoin,ethereum&vs_currencies=usd&foo=1]:
    [foo] is not forwarded. *)
Lemma http_price_query_is_echo_witness :
  snd (route_simple_price sample_env net_ok sample_stack
         (mkHttpRequest [("ids", JStr "bitcoin,ethereum");
                         ("vs_currencies", JStr "usd");
                         ("foo", JStr "1")] []) [])
  = [mkRequest
       (mkUrl "https://api.coingecko.com/api/v3/simple/price"
          [("ids", "bitcoin,ethereum"); ("vs_currencies", "usd")])
       (request_headers sample_env)].
Proof.
  destruct (http_price_query_is_echo sample_env net_ok sample_stack
              (mkHttpRequest [("ids", JStr "bitcoin,ethereum");
                              ("vs_currencies", JStr "usd");
                              ("foo", JStr "1")] []) [] eq_refl eq_refl)
    as [H _].
  - intros k Hk; simpl in Hk.
    repeat (destruct Hk as [<- | Hk]; [reflexivity |]); destruct Hk.
  - exact H.
Defined.

(** A [null] option of the price tool is sent as the text [null]. *)
Lemma tool_price_option_witness :
  In ("include_market_cap", "null")
    (url_searchParams
       (build_url "/simple/price"
          (Some (tool_price_params
                   (JObj [("ids", JStr "bitcoin");
                          ("vs_currencies", JStr "usd");
                          ("include_market_cap", JNull)]))))).
Proof.
  destruct (tool_price_option_forwarding sample_env net_ok sample_stack
              (JObj [("ids", JStr "bitcoin"); ("vs_currencies", JStr "usd");
                     ("include_market_cap", JNull)])
              "include_market_cap" [] eq_refl)
    as [_ [_ [_ [H _]]]].
  - intros k Hk; simpl in Hk.
    repeat (destruct Hk as [<- | Hk]; [reflexivity |]); destruct Hk.
  - left; reflexivity.
  - apply H; reflexivity.
Defined.

(** Token-by-address with [tickers=] (empty) and [sparkline=true]. *)
Lemma token_options_echo_witness :
  In "sparkline"
    (map fst
       (url_searchParams
          (req_url
             (build_request sample_env
                (token_endpoint (JStr "ethereum") (JStr "0xABC"))
                (Some (token_params
                         (obj_get [("tickers", JStr EmptyString);
                                   ("sparkline", JStr "true")])))))))
  /\ In ("tickers", JStr EmptyString)
       (token_params (obj_get [("tickers", JStr EmptyString);
                               ("sparkline", JStr "true")])).
Proof.
  destruct (token_options_echo sample_env net_ok sample_stack
              [("tickers", JStr EmptyString); ("sparkline", JStr "true")]
              (JStr "ethereum") (JStr "0xABC") []
              eq_refl eq_refl eq_refl eq_refl)
    as [Hech [_ [Hsent _]]].
  - intros k Hk; simpl in Hk.
    repeat (destruct Hk as [<- | Hk]; [reflexivity |]); destruct Hk.
  - split.
    + apply Hsent; split;
        [simpl; tauto | intros [E | [E | E]]; discriminate].
    + apply Hech; repeat split; [simpl; tauto | discriminate].
Defined.

(** An undeclared argument does not change what the price tool does. *)
Lemma tool_handlers_read_declared_inputs_witness :
  handleGetSimplePrice sample_env net_ok sample_stack
    (JObj [("ids", JStr "bitcoin"); ("vs_currencies", JStr "usd")]) []
  = handleGetSimplePrice sample_env net_ok sample_stack
      (JObj [("ids", JStr "bitcoin"); ("vs_currencies", JStr "usd");
             ("api_key", JStr "secret")]) [].
Proof.
  destruct (tool_handlers_read_declared_inputs sample_env net_ok sample_stack
              (JObj [("ids", JStr "bitcoin"); ("vs_currencies", JStr "usd")])
              (JObj [("ids", JStr "bitcoin"); ("vs_currencies", JStr "usd");
                     ("api_key", JStr "secret")])
              [] eq_refl eq_refl) as [H _].
  apply H; intros k Hk; simpl in Hk.
  repeat (destruct Hk as [<- | Hk]; [reflexivity |]); destruct Hk.
Defined.

(** Reading the trending resource against an upstream that answers 404. *)
Lemma feed_resources_rethrow_witness :
  outcome (read_resource_request sample_env net_404 sample_stack sample_clock
             "coingecko://trending/coins") []
  = Throw (ErrorObj "Error"
             "Failed to fetch trending coins: Error: CoinGecko API error: 404 Not Found"
             sample_stack).
Proof.
  destruct (feed_resources_rethrow sample_env net_404 sample_stack
              sample_clock []) as [_ [_ [_ [_ [_ [_ H]]]]]].
  exact (H (mkResponse 404 "Not Found" (inr (JObj []))) eq_refl eq_refl).
Defined.

(** Market status when the first call fails: one fetch, no price
    request. *)
Lemma market_status_fetch_sequence_witness :
  snd (read_resource_request sample_env net_first_fails sample_stack
         sample_clock "coingecko://market/status" [])
  = [build_request sample_env "/search/trending" None].
Proof.
  destruct (market_status_fetch_sequence sample_env net_first_fails
              sample_stack sample_clock []) as [H _].
  rewrite (H (ErrorObj "Error"
                "CoinGecko API error: 503 Service Unavailable" sample_stack)
             eq_refl).
  reflexivity.
Defined.

(** Market status over a trending payload of three coins. *)
Lemma market_status_trending_count_witness :
  outcome (read_resource_request sample_env net_three_coins sample_stack
             sample_clock "coingecko://market/status") []
  = Normal (mkResourceResult
              [mkResourceContent "coingecko://market/status"
                 "application/json"
                 (JSON_stringify
                    (JObj [("status", JStr "active");
                           ("timestamp", JStr sample_clock);
                           ("topCoins", sample_prices);
                           ("trendingCount", JNum 3);
                           ("summary",
                            JStr "Live crypto market data from CoinGecko")]))]).
Proof.
  destruct (market_status_trending_count sample_env net_three_coins
              sample_stack sample_clock
              (JObj [("coins", JArr [JStr "a"; JStr "b"; JStr "c"])])
              sample_prices [] eq_refl eq_refl) as [H _].
  exact (H [("coins", JArr [JStr "a"; JStr "b"; JStr "c"])]
           [JStr "a"; JStr "b"; JStr "c"] eq_refl eq_refl).
Defined.

(** Reading the API information resource. *)
Lemma resource_read_uri_witness :
  exists mime text,
    contents (mkResourceResult
                [mkResourceContent "coingecko://api/info" "text/plain"
                   (Lit apiInfo)])
    = [mkResourceContent "coingecko://api/info" mime text]
    /\ In ("coingecko://api/info", mime) getResources.
Proof.
  exact (resource_read_returns_requested_uri sample_env net_down sample_stack
           sample_clock "coingecko://api/info" [] _ eq_refl).
Defined.

(** [token_research] without an address throws; nothing is fetched. *)
Lemma prompts_never_fetch_witness :
  exists e,
    outcome (get_prompt_request sample_stack "token_research"
               (JObj [("chain", JStr "base")])) []
    = Throw e.
Proof.
  destruct (prompts_never_fetch sample_stack "token_research"
              (JObj [("chain", JStr "base")]) []) as [_ [[_ H] _]].
  apply H; right; split; reflexivity.
Defined.

(** The descriptors with payment configured. *)
Lemma descriptors_report_payment_witness :
  opt_get (opt_get (http_body (route_root paid_env sample_config
                                 request_prices)) "pricing")
    "get_simple_price"
  = JStr "$0.001".
Proof.
  destruct (descriptors_report_payment_state paid_env sample_config
              request_prices) as [_ [_ [_ [_ [_ H]]]]].
  destruct (H eq_refl) as [_ [_ Hp]].
  destruct (Hp "get_simple_price" "GET /mcp/simple/price"
              (or_introl eq_refl)) as [rule [Hr [Hroot _]]].
  rewrite Hroot; injection Hr as <-; reflexivity.
Defined.

(** A query map of absent values only. *)
Lemma absent_only_map_witness :
  callCoinGeckoAPI sample_env net_ok sample_stack "/search/trending"
    (Some [("page", JUndefined); ("order", JStr EmptyString);
           ("limit", JNull)]) []
  = callCoinGeckoAPI sample_env net_ok sample_stack "/search/trending"
      None [].
Proof.
  apply (absent_only_map_is_no_map sample_env net_ok sample_stack).
  intros k v [E | [E | [E | []]]]; inversion E; subst.
  - left; reflexivity.
  - right; right; reflexivity.
  - right; left; reflexivity.
Defined.

(** A 200 answer that carries HTML instead of JSON. *)
Lemma unparsable_success_witness :
  outcome (route_search_trending sample_env net_bad_json sample_stack
             request_prices) []
  = Normal (mkHttpResponse 500
              (JObj [("error", JStr "Failed to fetch trending coins");
                     ("message", JStr "Unexpected token < in JSON")])).
Proof.
  assert (R : 200 <= 200 <= 299) by (split; intro E; discriminate E).
  destruct (unparsable_success_is_failure sample_env net_bad_json
              sample_stack sample_clock
              (mkResponse 200 "OK"
                 (inl (ErrorObj "SyntaxError" "Unexpected token < in JSON"
                         "SyntaxError: Unexpected token < in JSON at parse")))
              (ErrorObj "SyntaxError" "Unexpected token < in JSON"
                 "SyntaxError: Unexpected token < in JSON at parse")
              [] (fun _ => eq_refl) R eq_refl)
    as [_ [H _]].
  exact (H request_prices).
Defined.

(** The facade called without a chain identifier. *)
Lemma facade_always_fetches_once_witness :
  fetches (getTokenPriceByAddress sample_env net_ok sample_stack
             JUndefined (JStr "0xABC") JUndefined JUndefined JUndefined
             JUndefined JUndefined JUndefined) []
  = 1%nat.
Proof.
  destruct (facade_always_fetches_once sample_env net_ok sample_stack
              JUndefined (JStr "0xABC") JUndefined JUndefined JUndefined
              JUndefined JUndefined JUndefined [])
    as [_ [_ [_ [H _]]]].
  - repeat constructor.
  - exact H.
Defined.

(** What the URL parser makes of a token address that contains [?]. *)
Example token_address_with_query_scenario :
  request_query
    (build_url "/coins/ethereum/contract/0xABC?tickers=false" None)
  = Some [("tickers", "false")].
Proof. reflexivity. Qed.
